(** * eFile Sathi front end: the multi-file upload pipeline

    A shallow embedding of the upload queue coordinator of
    [src/frontend/app.js] ([handleMultipleFiles], [renderUploadQueue],
    [formatFileSize], [handleFileUpload] and the helpers it awaits), with
    the properties the specification states about it.

    Conventions of the embedding.
    - File names are strings of 8-bit characters; [toLowerCase] maps the
      letters [A]..[Z] to [a]..[z] and leaves every other character alone.
      No character outside [A]..[Z] is lower-cased by JavaScript to a
      letter of the allow-list, so the filter decides alike.
    - [File.size] is a non-negative integer; the two divisions of
      [formatFileSize] are by powers of two, hence exact on doubles, and
      are carried out in [Q].
    - The DOM and the network are the outside world: what the code writes
      there is an [Event] of the run, what it reads from there comes from
      an [Env]. A [Render] is a call of [renderUploadQueue], a [Toast] a
      call of [showToast]: what the page shows when it has the elements
      they write to. Changes of [style.display] are left out.
    - One invocation of [handleMultipleFiles] is run to its end; a second
      invocation that starts while the first one is suspended is not
      part of the model. *)

From Stdlib Require Import ZArith QArith Qabs Qround Ascii String Sorted.
From stdpp Require Import base list strings pretty gmap.

Local Open Scope string_scope.
Local Open Scope Z_scope.
Local Open Scope list_scope.

(** ** JavaScript string helpers *)

Module JsString.

(** [String.prototype.toLowerCase] on one 8-bit character. *)
Definition lower_ascii (c : ascii) : ascii :=
  let n := N_of_ascii c in
  if ((65 <=? n) && (n <=? 90))%N then ascii_of_N (n + 32) else c.

Fixpoint toLowerCase (s : string) : string :=
  match s with
  | EmptyString => EmptyString
  | String c s' => String (lower_ascii c) (toLowerCase s')
  end.

(** [s.split(sep)] for a one-character separator: the pieces between
    the separators, in order; never the empty array. *)
Fixpoint split (sep : ascii) (s : string) : list string :=
  match s with
  | EmptyString => [EmptyString]
  | String c s' =>
      if Ascii.eqb c sep then EmptyString :: split sep s'
      else match split sep s' with
           | piece :: rest => String c piece :: rest
           | [] => [String c EmptyString]
           end
  end.

(** The value of [arr.pop()]: the last element ([None] is [undefined],
    on the empty array). *)
Definition pop (arr : list string) : option string := last arr.

(** [arr.includes(x)] on an array of strings. *)
Definition includes (arr : list string) (x : string) : bool :=
  existsb (String.eqb x) arr.

(** [arr.join(sep)]. *)
Fixpoint join (sep : string) (arr : list string) : string :=
  match arr with
  | [] => EmptyString
  | [x] => x
  | x :: rest => x +:+ sep +:+ join sep rest
  end.

(** Does the character occur in the string? *)
Fixpoint occurs (c : ascii) (s : string) : bool :=
  match s with
  | EmptyString => false
  | String d s' => Ascii.eqb d c || occurs c s'
  end.

End JsString.

(** ** Numbers: [toFixed(1)] and [formatFileSize] *)

Module JsNumber.

(** [x.toFixed(1)]: the integer [n] with [n / 10] nearest to [x], the
    larger one on a tie, printed with one digit after the point (for
    a negative [x]: the sign, then the same for [-x]). *)
Definition toFixed1 (x : Q) : string :=
  let mag := Qabs x in
  let n := Qfloor (mag * 10 + (1 # 2))%Q in
  let digits := pretty (n / 10) +:+ "." +:+ pretty (n mod 10) in
  if Qlt_le_dec x 0 then "-" +:+ digits else digits.

End JsNumber.

(** [formatFileSize(bytes)], lines 293-297. *)
Definition formatFileSize (bytes : Z) : string :=
  if bytes <? 1024 then pretty bytes +:+ " B"
  else if bytes <? 1024 * 1024 then
    JsNumber.toFixed1 (inject_Z bytes / inject_Z 1024)%Q +:+ " KB"
  else JsNumber.toFixed1 (inject_Z bytes / inject_Z (1024 * 1024))%Q +:+ " MB".

(** ** Data model *)

(** [item.status] takes one of four string values. *)
Inductive Status := pending | processing | done | error.

Definition Status_eqb (a b : Status) : bool :=
  match a, b with
  | pending, pending | processing, processing
  | done, done | error, error => true
  | _, _ => false
  end.

Definition terminal (s : Status) : bool :=
  match s with done | error => true | _ => false end.

(** A browser [File]: the two properties the code reads, and the binary
    payload as an opaque handle. *)
Module File.
Record t := mk { name : string; size : Z; blob : nat }.
End File.

(** An element of [uploadQueue], as built at lines 234-240. *)
Module QueueItem.
Record t := mk {
  id : nat;
  file : File.t;
  name : string;
  size : string;
  status : Status
}.

(** [item.status = s] *)
Definition set_status (s : Status) (it : t) : t :=
  mk (id it) (file it) (name it) (size it) s.
End QueueItem.

(** The body of a [/upload-ocr] response, as far as the code reads it.
    A property that is absent reads as [undefined]: [None]. *)
Record Metadata := mkMetadata {
  word_count : option Z;
  page_count : option Z;
  language : option string;
  has_handwriting : bool
}.

Record OcrData := mkOcrData {
  doc_id : option string;
  text : option string;
  metadata : option Metadata;
  confidence : option Z;
  category : option string
}.

Inductive JsonBody :=
| Unparsable                  (* response.json() rejects *)
| JsonNull                    (* the body is the JSON value null *)
| JsonObject (data : OcrData).

Inductive UploadResponse :=
| FetchRejected                               (* fetch() rejects *)
| Response (ok : bool) (body : JsonBody).

(** [/summarize-all]: every failure is caught inside [generateSummaries];
    otherwise [data.summaries] (an opaque value here) is stored. *)
Inductive SummaryResponse :=
| SummaryFailed
| SummaryBody (summaries : option string).

(** What one run reads from the outside world. The number is the count of
    earlier [/upload-ocr] requests: a server may answer the same file
    differently each time. *)
Record Env := mkEnv {
  upload_ocr : nat -> File.t -> UploadResponse;
  summarize_all : nat -> option string -> SummaryResponse;
  hasTextStats : bool            (* document.getElementById('textStats') *)
}.

(** [currentDocument], lines 10-15. *)
Record Document := mkDocument {
  docId : option string;
  doc_text : option string;
  doc_summaries : option string;
  doc_category : option string
}.

(** The module-level variables the pipeline touches, and the number of
    [/upload-ocr] requests sent so far. *)
Record State := mkState {
  uploadQueue : list QueueItem.t;
  currentDocument : Document;
  ocrCalls : nat
}.

(** What a run does to the outside world, in order. *)
Inductive Event :=
| Render (snapshot : list QueueItem.t)     (* renderUploadQueue() *)
| Toast (kind title message : string)      (* showToast(...) *)
| ShowStatus (kind : string)               (* showStatus(kind, ...) *)
| UploadOcr (k : nat) (f : File.t)         (* fetch('/upload-ocr') starts *)
| Request (endpoint : string)              (* any other fetch starts *)
| DomWrite (element : string)              (* innerHTML / textContent *)
| ConsoleError (label : string).

Inductive JsError :=
| NetworkError      (* rejected fetch *)
| UploadFailed      (* new Error('Upload failed') *)
| SyntaxError       (* rejected response.json() *)
| TypeError.        (* property read on undefined or null *)

(** ** The monad of the code: state, exceptions, and the events written *)

Inductive Outcome (A : Type) :=
| Return (a : A)
| Throw (e : JsError)
| OutOfFuel.
Arguments Return {A} a.
Arguments Throw {A} e.
Arguments OutOfFuel {A}.

Definition M (A : Type) : Type := State -> Outcome A * State * list Event.

Definition ret {A} (a : A) : M A := fun st => (Return a, st, []).

Definition bind {A B} (m : M A) (k : A -> M B) : M B :=
  fun st =>
    match m st with
    | (Return a, st1, ev1) =>
        match k a st1 with
        | (r, st2, ev2) => (r, st2, ev1 ++ ev2)
        end
    | (Throw e, st1, ev1) => (Throw e, st1, ev1)
    | (OutOfFuel, st1, ev1) => (OutOfFuel, st1, ev1)
    end.

Notation "x <- m ;; k" := (bind m (fun x => k))
  (at level 100, m at next level, right associativity).
Notation "m ;; k" := (bind m (fun _ => k))
  (at level 100, right associativity).

Definition throw {A} (e : JsError) : M A := fun st => (Throw e, st, []).

(** [try { body } catch (error) { handler }] *)
Definition try_catch {A} (body : M A) (handler : JsError -> M A) : M A :=
  fun st =>
    match body st with
    | (Throw e, st1, ev1) =>
        match handler e st1 with
        | (r, st2, ev2) => (r, st2, ev1 ++ ev2)
        end
    | other => other
    end.

Definition emit (e : Event) : M unit := fun st => (Return tt, st, [e]).

Definition get : M State := fun st => (Return st, st, []).

Definition set_uploadQueue (q : list QueueItem.t) : M unit :=
  fun st => (Return tt, mkState q (currentDocument st) (ocrCalls st), []).

Definition set_currentDocument (d : Document) : M unit :=
  fun st => (Return tt, mkState (uploadQueue st) d (ocrCalls st), []).

(** JavaScript truthiness of a value that is a string or [undefined]. *)
Definition truthy (v : option string) : bool :=
  match v with
  | Some s => negb (String.eqb s "")
  | None => false
  end.

(** ** The program *)

Section Program.

Variable env : Env.

(** Line 212. *)
Definition validTypes : list string :=
  [".pdf"; ".png"; ".jpg"; ".jpeg"; ".tiff"].

(** ['.' + file.name.split('.').pop().toLowerCase()], line 216.
    [split] never returns the empty array ([split_nonempty] below), so
    [pop] is never [undefined] here and the default is never used. *)
Definition dotted_ext (name : string) : string :=
  "." +:+ JsString.toLowerCase
            (default "" (JsString.pop (JsString.split "." name))).

(** The callback of [files.filter], lines 215-218. *)
Definition isValidFile (f : File.t) : bool :=
  JsString.includes validTypes (dotted_ext (File.name f)).

Definition validFiles (files : list File.t) : list File.t :=
  List.filter isValidFile files.

(** The callback of [validFiles.map], lines 234-240. *)
Definition enqueue (index : nat) (f : File.t) : QueueItem.t :=
  QueueItem.mk index f (File.name f) (formatFileSize (File.size f)) pending.

(** [renderUploadQueue()]: what is shown is the queue as it is now. *)
Definition renderUploadQueue : M unit :=
  st <- get ;; emit (Render (uploadQueue st)).

(** [uploadQueue[i].status = s]; reading [.status] off [undefined]
    throws. *)
Definition set_item_status (i : nat) (s : Status) : M unit :=
  st <- get ;;
  match uploadQueue st !! i with
  | None => throw TypeError
  | Some _ =>
      set_uploadQueue (alter (QueueItem.set_status s) i (uploadQueue st))
  end.

(** [uploadQueue[i].file] *)
Definition item_file (i : nat) : M File.t :=
  st <- get ;;
  match uploadQueue st !! i with
  | None => throw TypeError
  | Some it => ret (QueueItem.file it)
  end.

(** [await fetch('/upload-ocr', ...)], lines 309-312. *)
Definition fetch_upload_ocr (f : File.t) : M (bool * JsonBody) :=
  fun st =>
    let k := ocrCalls st in
    let st' := mkState (uploadQueue st) (currentDocument st) (S k) in
    match upload_ocr env k f with
    | FetchRejected => (Throw NetworkError, st', [UploadOcr k f])
    | Response ok body => (Return (ok, body), st', [UploadOcr k f])
    end.

(** [await response.json()] *)
Definition json (body : JsonBody) : M (option OcrData) :=
  match body with
  | Unparsable => throw SyntaxError
  | JsonNull => ret None
  | JsonObject d => ret (Some d)
  end.

(** A property read [x.p] where [x] may be [undefined] or [null]. *)
Definition deref {A} (x : option A) : M A :=
  match x with
  | None => throw TypeError
  | Some a => ret a
  end.

(** [displayOCRResults(data)], lines 432-456. *)
Definition displayOCRResults (data : OcrData) : M unit :=
  (if hasTextStats env then
     (if truthy (category data) then
        st <- get ;;
        let d := currentDocument st in
        set_currentDocument
          (mkDocument (docId d) (doc_text d) (doc_summaries d) (category data))
      else ret tt) ;;
     m <- deref (metadata data) ;;
     _ <- deref (confidence data) ;;
     _ <- deref (language m) ;;
     emit (DomWrite "textStats")
   else ret tt) ;;
  emit (DomWrite "extractedText").

(** [displaySummary(level)], lines 530-548. *)
Definition displaySummary : M unit :=
  st <- get ;;
  _ <- deref (doc_summaries (currentDocument st)) ;;
  emit (DomWrite "summaryText").

(** [generateSummaries()], lines 500-528. *)
Definition generateSummaries : M unit :=
  st <- get ;;
  if negb (truthy (doc_text (currentDocument st))) then ret tt
  else
    emit (DomWrite "summaryText") ;;
    try_catch
      (emit (Request "/summarize-all") ;;
       match summarize_all env (ocrCalls st) (doc_text (currentDocument st)) with
       | SummaryFailed => throw NetworkError
       | SummaryBody s =>
           let d := currentDocument st in
           set_currentDocument
             (mkDocument (docId d) (doc_text d) s (doc_category d)) ;;
           displaySummary
       end)
      (fun _ => emit (ConsoleError "Summarization error:")).

(** [extractActions()], lines 554-578: a request whose failures are all
    caught, and writes to the page. *)
Definition extractActions : M unit :=
  st <- get ;;
  if negb (truthy (doc_text (currentDocument st))) then ret tt
  else emit (DomWrite "actionItems") ;; emit (Request "/extract").

(** [loadStats()], lines 966-986, called without [await]. *)
Definition loadStats : M unit := emit (Request "/health").

(** [handleFileUpload(file)], lines 299-348. *)
Definition handleFileUpload (f : File.t) : M OcrData :=
  emit (ShowStatus "loading") ;;
  response <- fetch_upload_ocr f ;;
  if negb (fst response) then throw UploadFailed
  else
    parsed <- json (snd response) ;;
    data <- deref parsed ;;
    st <- get ;;
    let d := currentDocument st in
    set_currentDocument
      (mkDocument (doc_id data) (text data) (doc_summaries d) (doc_category d)) ;;
    m <- deref (metadata data) ;;
    emit (ShowStatus "success") ;;
    displayOCRResults data ;;
    generateSummaries ;;
    extractActions ;;
    loadStats ;;
    ret data.

(** One turn of the loop, lines 246-257. *)
Definition processItem (i : nat) : M unit :=
  set_item_status i processing ;;
  renderUploadQueue ;;
  try_catch
    (f <- item_file i ;;
     _ <- handleFileUpload f ;;
     set_item_status i done)
    (fun _ =>
       set_item_status i error ;;
       emit (ConsoleError "Upload error:")) ;;
  renderUploadQueue.

(** [for (let i = ...; i < uploadQueue.length; i++) { ... }], run for at
    most [fuel] turns. *)
Fixpoint processFrom (fuel : nat) (i : nat) : M unit :=
  fun st =>
    if (i <? length (uploadQueue st))%nat then
      match fuel with
      | O => (OutOfFuel, st, [])
      | S fuel' => (processItem i ;; processFrom fuel' (S i)) st
      end
    else (Return tt, st, []).

(** [handleMultipleFiles(files)], lines 211-261. The loop gets as many
    turns as the queue is long. *)
Definition handleMultipleFiles (files : list File.t) : M unit :=
  let validFiles := validFiles files in
  if (length validFiles =? 0)%nat then
    emit (Toast "error" "Invalid Files"
            ("Only " +:+ JsString.join ", " validTypes +:+ " are supported"))
  else
    set_uploadQueue (imap enqueue validFiles) ;;
    renderUploadQueue ;;
    processFrom (length validFiles) 0 ;;
    emit (Toast "success" "Upload Complete"
            ("Processed " +:+ pretty (length validFiles) +:+ " file(s)")).

End Program.

(** The state of a freshly loaded page, lines 10-24. *)
Definition initial_state : State :=
  mkState [] (mkDocument None (Some "") (Some "{}") None) 0.

(** ** Reading a run *)

Definition run_outcome {A} (r : Outcome A * State * list Event) : Outcome A :=
  fst (fst r).
Definition run_state {A} (r : Outcome A * State * list Event) : State :=
  snd (fst r).
Definition run_events {A} (r : Outcome A * State * list Event) : list Event :=
  snd r.

(** The queue snapshots a run publishes, in order. *)
Fixpoint renders (evs : list Event) : list (list QueueItem.t) :=
  match evs with
  | [] => []
  | Render q :: evs' => q :: renders evs'
  | _ :: evs' => renders evs'
  end.

(** The part of a run an observer of the pipeline follows: the published
    snapshots, the starts of the extraction calls, and the toasts. *)
Definition is_observable (e : Event) : bool :=
  match e with
  | Render _ | UploadOcr _ _ | Toast _ _ _ => true
  | _ => false
  end.

Definition observable (evs : list Event) : list Event :=
  List.filter is_observable evs.

(** The files of the queue a run publishes first; none when it publishes
    no queue. *)
Definition enqueued (evs : list Event) : list File.t :=
  match renders evs with
  | q :: _ => map QueueItem.file q
  | [] => []
  end.

Definition statuses (q : list QueueItem.t) : list Status :=
  map QueueItem.status q.

(** ** The specification's vocabulary *)

(** The substring after the final ['.'] of a name; with no ['.'] in the
    name the substring starts at the start of the name. *)
Fixpoint after_final_dot (s : string) : string :=
  match s with
  | EmptyString => EmptyString
  | String c s' =>
      if JsString.occurs "." s' then after_final_dot s'
      else if Ascii.eqb c "." then s'
      else String c s'
  end.

Definition extension (name : string) : string :=
  JsString.toLowerCase (after_final_dot name).

(** The allow-list of recognized extensions. *)
Definition recognized : list string := ["pdf"; "png"; "jpg"; "jpeg"; "tiff"].

Definition recognized_file (f : File.t) : bool :=
  JsString.includes recognized (extension (File.name f)).

(** How an extraction call ends for the pipeline: [done] when
    [handleFileUpload] returns, [error] when it throws. *)
Definition call_status (env : Env) (k : nat) (f : File.t) : Status :=
  match upload_ocr env k f with
  | Response true (JsonObject d) =>
      match metadata d with
      | Some m =>
          if hasTextStats env then
            match confidence d, language m with
            | Some _, Some _ => done
            | _, _ => error
            end
          else done
      | None => error
      end
  | _ => error
  end.

(** The response body the code decoded and stored, if it got that far. *)
Definition decoded (env : Env) (k : nat) (f : File.t) : option OcrData :=
  match upload_ocr env k f with
  | Response true (JsonObject d) => Some d
  | _ => None
  end.

(** The terminal status of the item [it] at position [j] of a batch whose
    first extraction call is request number [c0]. *)
Definition resolved (env : Env) (c0 : nat) (j : nat) (it : QueueItem.t)
    : Status :=
  call_status env (c0 + j) (QueueItem.file it).

(** The two fields of [currentDocument] that [handleFileUpload] stores. *)
Definition doc_fields (d : Document) : option string * option string :=
  (docId d, doc_text d).

(** [docId] and [text] of [currentDocument] after the calls for the files
    [fs], the first of them being request number [k]. *)
Fixpoint stored (env : Env) (k : nat) (fs : list File.t)
    (cur : option string * option string) : option string * option string :=
  match fs with
  | [] => cur
  | f :: fs' =>
      stored env (S k) fs'
        (match decoded env k f with
         | Some d => (doc_id d, text d)
         | None => cur
         end)
  end.

Section Stages.

(** [fin j it]: the terminal status of the item [it] at position [j]. *)
Variable fin : nat -> QueueItem.t -> Status.
(** Number of the first extraction call of the batch. *)
Variable c0 : nat.
(** The queue as enqueued. *)
Variable q0 : list QueueItem.t.

(** The queue when the items before position [k] are resolved, the item
    at [k] has status [cur], and the items behind it wait. *)
Definition progress (k : nat) (cur : Status) : list QueueItem.t :=
  imap (fun j it =>
          QueueItem.set_status
            (if (j <? k)%nat then fin j it
             else if (j =? k)%nat then cur else pending) it) q0.

(** What an observer sees while the items [rest], the first at position
    [i], are processed. *)
Fixpoint trace_from (i : nat) (rest : list QueueItem.t) : list Event :=
  match rest with
  | [] => []
  | it :: rest' =>
      Render (progress i processing)
        :: UploadOcr (c0 + i) (QueueItem.file it)
        :: Render (progress (S i) pending)
        :: trace_from (S i) rest'
  end.

(** A snapshot taken at stage [i] or later, between two resolutions. *)
Definition at_stage (i : nat) (q : list QueueItem.t) : Prop :=
  exists k cur,
    (i <= k)%nat /\ terminal cur = false /\ q = progress k cur.

End Stages.

(** The two toasts of [handleMultipleFiles]. *)
Definition rejection_toast : Event :=
  Toast "error" "Invalid Files"
    "Only .pdf, .png, .jpg, .jpeg, .tiff are supported".

Definition completion_toast (attempted : nat) : Event :=
  Toast "success" "Upload Complete"
    ("Processed " +:+ pretty attempted +:+ " file(s)").

(** "At most one item has status [processing]." *)
Definition single_in_flight (q : list QueueItem.t) : Prop :=
  forall a b ia ib,
    q !! a = Some ia -> q !! b = Some ib ->
    QueueItem.status ia = processing -> QueueItem.status ib = processing ->
    a = b.

(** "An item leaves [pending] only when every item before it is
    resolved." *)
Definition one_at_a_time (q : list QueueItem.t) : Prop :=
  forall a b ia ib,
    (a < b)%nat -> q !! a = Some ia -> q !! b = Some ib ->
    QueueItem.status ib <> pending ->
    terminal (QueueItem.status ia) = true.

(** "What is resolved in [qa] is shown with the same status in [qb]." *)
Definition keeps_resolved (qa qb : list QueueItem.t) : Prop :=
  forall p ia,
    qa !! p = Some ia -> terminal (QueueItem.status ia) = true ->
    exists ib, qb !! p = Some ib /\ QueueItem.status ib = QueueItem.status ia.

(** The number of items shown as [processing]. *)
Definition count_processing (q : list QueueItem.t) : nat :=
  length (List.filter
            (fun it => Status_eqb (QueueItem.status it) processing) q).

(** A failed extraction call: a network error, a non-success response,
    or a malformed response (a body that cannot be parsed, the value
    [null], or an object without [metadata]). *)
Definition failed_call (r : UploadResponse) : bool :=
  match r with
  | FetchRejected => true
  | Response false _ => true
  | Response true Unparsable => true
  | Response true JsonNull => true
  | Response true (JsonObject d) =>
      match metadata d with
      | None => true
      | Some _ => false
      end
  end.

(** "After the batch, [currentDocument] holds the result of the last item
    that reached [done]." *)
Definition holds_last_done (env : Env) (files : list File.t) (st : State)
    : Prop :=
  let r := handleMultipleFiles env files st in
  forall i f d,
    validFiles files !! i = Some f ->
    statuses (uploadQueue (run_state r)) !! i = Some done ->
    (forall j, (i < j)%nat ->
               statuses (uploadQueue (run_state r)) !! j <> Some done) ->
    decoded env (ocrCalls st + i) f = Some d ->
    doc_fields (currentDocument (run_state r)) = (doc_id d, text d).

(** ** Sample inputs *)

Module Sample.

Definition file (name : string) : File.t := File.mk name 500 0.

(** A complete response body. *)
Definition full (id : string) : OcrData :=
  mkOcrData (Some id) (Some ("text of " +:+ id))
    (Some (mkMetadata (Some 3) (Some 1) (Some "en") false)) (Some 90) None.

(** A body with [doc_id] and [text] and no [metadata]. *)
Definition bare (id : string) : OcrData :=
  mkOcrData (Some id) (Some ("text of " +:+ id)) None None None.

Definition summaries_ok : nat -> option string -> SummaryResponse :=
  fun _ _ => SummaryBody (Some "{}").

(** Every request is answered with a complete body. *)
Definition reliable : Env :=
  mkEnv (fun _ f => Response true (JsonObject (full (File.name f))))
    summaries_ok true.

(** The second request is answered with a non-success status. *)
Definition second_refused : Env :=
  mkEnv (fun k f =>
           if (k =? 1)%nat then Response false Unparsable
           else Response true (JsonObject (full (File.name f))))
    summaries_ok true.

(** The second request is answered with a body that has no [metadata]. *)
Definition second_bare : Env :=
  mkEnv (fun k f =>
           if (k =? 1)%nat then Response true (JsonObject (bare (File.name f)))
           else Response true (JsonObject (full (File.name f))))
    summaries_ok true.

Definition mixed_batch : list File.t :=
  [file "b.pdf"; file "a.png"; file "c.txt"; file "d.jpg"].

Definition three : list File.t := [file "a.pdf"; file "b.png"; file "c.jpg"].

Definition two : list File.t := [file "a.pdf"; file "b.pdf"].

Definition unsupported : list File.t := [file "notes.txt"; file "archive.zip"].

End Sample.

(** * More of the page *)

(** ** The icon of a queue item *)

(** The three icons of [getIcon], lines 273-278; the markup is left out. *)
Inductive Icon := DocumentIcon | ImageIcon | FolderIcon.

(** [getIcon(name)] inside [renderUploadQueue], lines 273-278. *)
Definition getIcon (name : string) : Icon :=
  let ext :=
    JsString.toLowerCase
      (default "" (JsString.pop (JsString.split "." name))) in
  if String.eqb ext "pdf" then DocumentIcon
  else if JsString.includes ["png"; "jpg"; "jpeg"] ext then ImageIcon
  else FolderIcon.

(** The extraction calls a run starts, in order: request number and
    file. *)
Fixpoint uploads (evs : list Event) : list (nat * File.t) :=
  match evs with
  | [] => []
  | UploadOcr k f :: evs' => (k, f) :: uploads evs'
  | _ :: evs' => uploads evs'
  end.

(** The toasts a run shows, in order. *)
Fixpoint toasts (evs : list Event) : list Event :=
  match evs with
  | [] => []
  | Toast kind title message :: evs' =>
      Toast kind title message :: toasts evs'
  | _ :: evs' => toasts evs'
  end.

(** The requests a run starts to endpoints other than [/upload-ocr]. *)
Fixpoint requests (evs : list Event) : list string :=
  match evs with
  | [] => []
  | Request endpoint :: evs' => endpoint :: requests evs'
  | _ :: evs' => requests evs'
  end.

(** ** The page around the pipeline *)

(** What the rest of the page does to the outside world: the events of
    the pipeline, and files handed to the browser for saving. *)
Inductive DownloadName :=
| TextFile (id : string)            (* extracted_text_<id>.txt *)
| PdfFile (docId : option string).  (* document_<docId>.pdf *)

Inductive Payload :=
| TextPayload (content : string)    (* new Blob([text]) *)
| ServerBlob.                       (* await response.blob() *)

Inductive PageEvent :=
| Core (e : Event)
| Download (name : DownloadName) (payload : Payload)
| ClipboardWrite (content : string).

(** The body of a [/compare] response. The three numbers are kept as the
    text a template literal gives them. *)
Record ComparisonData := mkComparisonData {
  doc1_diff : option (list (string * string));   (* type, text *)
  doc2_diff : option (list (string * string));
  similarity_score : string;
  additions : string;
  deletions : string
}.

Inductive CompareResponse :=
| CompareFailed                                  (* fetch or json() rejects *)
| CompareBody (data : option ComparisonData).    (* [None]: null *)

(** The body of a [/compliance/check] response. [score] is the exact
    value of the number; [None] is a missing score. *)
Record ComplianceData := mkComplianceData {
  score : option Q;
  grade : string;
  checks : option (list (bool * string));        (* passed, message *)
  has_digital_signature : bool
}.

Inductive ComplianceResponse :=
| ComplianceFailed
| ComplianceBody (data : option ComplianceData).

Inductive ExportResponse :=
| ExportRejected                                 (* fetch rejects *)
| ExportResponded (ok : bool) (blob_ok : bool).

Inductive ClipboardResult :=
| ClipboardMissing      (* navigator.clipboard is undefined *)
| ClipboardWritten
| ClipboardDenied.

(** What the page reads from the outside world besides [Env]: the other
    services, and which elements the document has. *)
Record PageEnv := mkPageEnv {
  compare_service : string -> string -> CompareResponse;
  compliance_service : string -> ComplianceResponse;
  export_service : option string -> option string -> ExportResponse;
  clipboard : ClipboardResult;
  hasCompareZone1 : bool;        (* #compareDoc1Zone *)
  hasCompareZone2 : bool;        (* #compareDoc2Zone *)
  hasComparisonResults : bool;   (* #comparisonResults *)
  hasDoc1Content : bool;         (* #comparisonDoc1Content *)
  hasDoc2Content : bool;         (* #comparisonDoc2Content *)
  hasComplianceResults : bool;   (* #complianceResults *)
  hasComplianceProgress : bool;  (* #complianceProgress *)
  hasComplianceValue : bool;     (* #complianceValue *)
  hasComplianceChecklist : bool; (* #complianceChecklist *)
  hasEsignStatus : bool;         (* #esignStatus *)
  hasComplianceMeter : bool      (* #complianceMeter *)
}.

(** The module-level variables of the whole file that the modelled code
    touches, and the class list of the compliance meter. *)
Record Page := mkPage {
  core : State;
  compareDoc1Text : string;      (* line 1217 *)
  compareDoc2Text : string;      (* line 1218 *)
  meterClasses : gset string     (* #complianceMeter.classList *)
}.

(** The monad of the page: as [M], over [Page] and [PageEvent]. *)
Definition P (A : Type) : Type :=
  Page -> Outcome A * Page * list PageEvent.

Definition pret {A} (a : A) : P A := fun pg => (Return a, pg, []).

Definition pbind {A B} (m : P A) (k : A -> P B) : P B :=
  fun pg =>
    match m pg with
    | (Return a, pg1, ev1) =>
        match k a pg1 with
        | (r, pg2, ev2) => (r, pg2, ev1 ++ ev2)
        end
    | (Throw e, pg1, ev1) => (Throw e, pg1, ev1)
    | (OutOfFuel, pg1, ev1) => (OutOfFuel, pg1, ev1)
    end.

Notation "x <-- m ;;; k" := (pbind m (fun x => k))
  (at level 100, m at next level, right associativity).
Notation "m ;;; k" := (pbind m (fun _ => k))
  (at level 100, right associativity).

Definition pthrow {A} (e : JsError) : P A := fun pg => (Throw e, pg, []).

Definition ptry {A} (body : P A) (handler : JsError -> P A) : P A :=
  fun pg =>
    match body pg with
    | (Throw e, pg1, ev1) =>
        match handler e pg1 with
        | (r, pg2, ev2) => (r, pg2, ev1 ++ ev2)
        end
    | other => other
    end.

Definition pemit (e : PageEvent) : P unit := fun pg => (Return tt, pg, [e]).

Definition pget : P Page := fun pg => (Return pg, pg, []).

Definition pput (pg : Page) : P unit := fun _ => (Return tt, pg, []).

(** Code that only touches the variables of the pipeline, run on the
    page. *)
Definition lift {A} (m : M A) : P A :=
  fun pg =>
    match m (core pg) with
    | (r, st, evs) =>
        (r, mkPage st (compareDoc1Text pg) (compareDoc2Text pg)
              (meterClasses pg),
         map Core evs)
    end.

(** [showToast(kind, title, message)] *)
Definition showToast (kind title message : string) : P unit :=
  pemit (Core (Toast kind title message)).

(** [x.p] where [x] may be [undefined] or [null]. *)
Definition pderef {A} (x : option A) : P A :=
  match x with
  | None => pthrow TypeError
  | Some a => pret a
  end.

(** [Math.round(x)] as a string: the nearest integer, the larger one on a
    tie; "NaN" for a missing number. *)
Definition show_round (x : option Q) : string :=
  match x with
  | Some q => pretty (Qfloor (q + (1 # 2))%Q)
  | None => "NaN"
  end.

(** [x < bound] on numbers; [false] when [x] is missing. *)
Definition js_lt (x : option Q) (bound : Z) : bool :=
  match x with
  | Some q => if Qlt_le_dec q (inject_Z bound) then true else false
  | None => false
  end.

(** [x >= bound] on numbers; [false] when [x] is missing. *)
Definition js_ge (x : option Q) (bound : Z) : bool :=
  match x with
  | Some q => if Qlt_le_dec q (inject_Z bound) then false else true
  | None => false
  end.

Section PageCode.

Variable env : Env.
Variable penv : PageEnv.

(** [uploadAndExtractText(file)], lines 1257-1272. *)
Definition uploadAndExtractText (f : File.t) : M string :=
  try_catch
    (response <- fetch_upload_ocr env f ;;
     parsed <- json (snd response) ;;
     data <- deref parsed ;;
     ret (default "" (text data)))
    (fun _ =>
       emit (Toast "error" "Error" "Failed to extract text") ;;
       ret "").

(** The [change] listener of [#compareDoc1], lines 1231-1238; [selected]
    is [e.target.files[0]]. *)
Definition onCompareDoc1Change (selected : option File.t) : P unit :=
  match selected with
  | None => pret tt
  | Some f =>
      extracted <-- lift (uploadAndExtractText f) ;;;
      pg <-- pget ;;;
      pput (mkPage (core pg) extracted (compareDoc2Text pg)
              (meterClasses pg)) ;;;
      (if hasCompareZone1 penv
       then pemit (Core (DomWrite "compareDoc1Zone"))
       else pthrow TypeError) ;;;
      showToast "success" "Loaded" "First document ready"
  end.

(** The [change] listener of [#compareDoc2], lines 1242-1249. *)
Definition onCompareDoc2Change (selected : option File.t) : P unit :=
  match selected with
  | None => pret tt
  | Some f =>
      extracted <-- lift (uploadAndExtractText f) ;;;
      pg <-- pget ;;;
      pput (mkPage (core pg) (compareDoc1Text pg) extracted
              (meterClasses pg)) ;;;
      (if hasCompareZone2 penv
       then pemit (Core (DomWrite "compareDoc2Zone"))
       else pthrow TypeError) ;;;
      showToast "success" "Loaded" "Second document ready"
  end.

(** [displayComparisonResults(data)], lines 1300-1325. *)
Definition displayComparisonResults (data : option ComparisonData) : P unit :=
  if negb (hasComparisonResults penv) then pret tt
  else
    (if hasDoc1Content penv then
       d <-- pderef data ;;;
       _ <-- pderef (doc1_diff d) ;;;
       pemit (Core (DomWrite "comparisonDoc1Content"))
     else pret tt) ;;;
    (if hasDoc2Content penv then
       d <-- pderef data ;;;
       _ <-- pderef (doc2_diff d) ;;;
       pemit (Core (DomWrite "comparisonDoc2Content"))
     else pret tt) ;;;
    d <-- pderef data ;;;
    showToast "success" "Comparison Complete"
      ("Similarity: " +:+ similarity_score d +:+ "% | " +:+ additions d
         +:+ " additions, " +:+ deletions d +:+ " deletions").

(** [compareDocuments()], lines 1274-1298. *)
Definition compareDocuments : P unit :=
  pg <-- pget ;;;
  if negb (truthy (Some (compareDoc1Text pg)))
     || negb (truthy (Some (compareDoc2Text pg)))
  then showToast "warning" "Missing Documents"
         "Please upload both documents first"
  else
    showToast "info" "Comparing..." "Analyzing document differences" ;;;
    ptry
      (pemit (Core (Request "/compare")) ;;;
       match compare_service penv (compareDoc1Text pg) (compareDoc2Text pg)
       with
       | CompareFailed => pthrow NetworkError
       | CompareBody data => displayComparisonResults data
       end)
      (fun _ => showToast "error" "Error" "Comparison failed").

(** [showConfetti()], lines 1585-1603: a container appended to the
    body. *)
Definition showConfetti : P unit :=
  pemit (Core (DomWrite "confetti-container")).

(** [displayComplianceResults(data)], lines 1368-1427. The stroke of the
    progress circle is a write to the page. *)
Definition displayComplianceResults (data : option ComplianceData) : P unit :=
  if negb (hasComplianceResults penv) then pret tt
  else
    d <-- pderef data ;;;
    (if hasComplianceProgress penv
     then pemit (Core (DomWrite "complianceProgress")) else pret tt) ;;;
    (if hasComplianceValue penv
     then pemit (Core (DomWrite "complianceValue")) else pret tt) ;;;
    (if hasComplianceMeter penv then
       pg <-- pget ;;;
       let removed := meterClasses pg ∖ {["low"; "medium"]} in
       let classes :=
         if js_lt (score d) 50 then removed ∪ {["low"]}
         else if js_lt (score d) 75 then removed ∪ {["medium"]}
         else removed in
       pput (mkPage (core pg) (compareDoc1Text pg) (compareDoc2Text pg)
               classes)
     else pret tt) ;;;
    (if hasComplianceChecklist penv then
       _ <-- pderef (checks d) ;;;
       pemit (Core (DomWrite "complianceChecklist"))
     else pret tt) ;;;
    (if hasEsignStatus penv
     then pemit (Core (DomWrite "esignStatus")) else pret tt) ;;;
    showToast "success" "Compliance Check Complete"
      ("Score: " +:+ show_round (score d) +:+ "% (Grade " +:+ grade d
         +:+ ")") ;;;
    if js_ge (score d) 90 then showConfetti else pret tt.

(** The [try] block of [checkDocumentCompliance], lines 1353-1365. *)
Definition requestCompliance (extracted : string) : P unit :=
  ptry
    (pemit (Core (Request "/compliance/check")) ;;;
     match compliance_service penv extracted with
     | ComplianceFailed => pthrow NetworkError
     | ComplianceBody data => displayComplianceResults data
     end)
    (fun _ => showToast "error" "Error" "Compliance check failed").

(** [checkDocumentCompliance(file)], lines 1347-1366. *)
Definition checkDocumentCompliance (f : File.t) : P unit :=
  showToast "info" "Checking..." "Analyzing document compliance" ;;;
  extracted <-- lift (uploadAndExtractText f) ;;;
  if negb (truthy (Some extracted)) then pret tt
  else requestCompliance extracted.

(** [docId || 'document'] *)
Definition docId_or_document (d : Document) : string :=
  if truthy (docId d) then default "" (docId d) else "document".

(** [downloadText()], lines 362-377. *)
Definition downloadText : P unit :=
  pg <-- pget ;;;
  let d := currentDocument (core pg) in
  if negb (truthy (doc_text d)) then
    showToast "warning" "No Content" "Please upload a document first"
  else
    pemit (Download (TextFile (docId_or_document d))
             (TextPayload (default "" (doc_text d)))) ;;;
    showToast "success" "Downloaded" "Text file saved successfully".

(** [downloadPDF()], lines 379-413. *)
Definition downloadPDF : P unit :=
  pg <-- pget ;;;
  let d := currentDocument (core pg) in
  if negb (truthy (doc_text d)) then
    showToast "warning" "No Content" "Please upload a document first"
  else
    ptry
      (pemit (Core (Request "/export/pdf")) ;;;
       match export_service penv (docId d) (doc_text d) with
       | ExportRejected => pthrow NetworkError
       | ExportResponded true blob_ok =>
           (if blob_ok then pret tt else pthrow NetworkError) ;;;
           pemit (Download (PdfFile (docId d)) ServerBlob) ;;;
           showToast "success" "Downloaded" "PDF saved successfully"
       | ExportResponded false _ =>
           downloadText ;;;
           showToast "info" "Fallback"
             "Downloaded as text (PDF not available)"
       end)
      (fun _ =>
         downloadText ;;;
         showToast "info" "Fallback" "Downloaded as text file").

(** [copyText()], lines 415-426. *)
Definition copyText : P unit :=
  pg <-- pget ;;;
  let d := currentDocument (core pg) in
  if negb (truthy (doc_text d)) then
    showToast "warning" "No Content" "Please upload a document first"
  else
    match clipboard penv with
    | ClipboardMissing => pthrow TypeError
    | ClipboardWritten =>
        pemit (ClipboardWrite (default "" (doc_text d))) ;;;
        showToast "success" "Copied" "Text copied to clipboard"
    | ClipboardDenied =>
        showToast "error" "Failed" "Could not copy to clipboard"
    end.

End PageCode.

(** A page with the state [st] of the pipeline and nothing loaded for
    comparison. *)
Definition page_of (st : State) : Page := mkPage st "" "" ∅.

Definition prun_outcome {A} (r : Outcome A * Page * list PageEvent)
    : Outcome A := fst (fst r).
Definition prun_page {A} (r : Outcome A * Page * list PageEvent)
    : Page := snd (fst r).
Definition prun_events {A} (r : Outcome A * Page * list PageEvent)
    : list PageEvent := snd r.

(** The toasts among the events of the page. *)
Fixpoint page_toasts (evs : list PageEvent) : list Event :=
  match evs with
  | [] => []
  | Core (Toast kind title message) :: evs' =>
      Toast kind title message :: page_toasts evs'
  | _ :: evs' => page_toasts evs'
  end.

(** The requests among the events of the page, [/upload-ocr] included. *)
Fixpoint page_requests (evs : list PageEvent) : list string :=
  match evs with
  | [] => []
  | Core (Request endpoint) :: evs' => endpoint :: page_requests evs'
  | Core (UploadOcr _ _) :: evs' => "/upload-ocr" :: page_requests evs'
  | _ :: evs' => page_requests evs'
  end.

(** The files handed to the browser for saving. *)
Fixpoint page_downloads (evs : list PageEvent)
    : list (DownloadName * Payload) :=
  match evs with
  | [] => []
  | Download name payload :: evs' => (name, payload) :: page_downloads evs'
  | _ :: evs' => page_downloads evs'
  end.

(** Code of the page that starts no request and runs to its end. *)
Definition sends_nothing {A} (m : P A) : Prop :=
  forall pg,
    page_requests (prun_events (m pg)) = [] /\
    prun_outcome (m pg) <> OutOfFuel.

(** An event that is not the start of a request. *)
Definition is_request (e : PageEvent) : bool :=
  match e with
  | Core (Request _) | Core (UploadOcr _ _) => true
  | _ => false
  end.

(** Page surroundings for the examples: every element present, every
    other service failing. *)
Definition Sample_penv : PageEnv :=
  mkPageEnv (fun _ _ => CompareFailed) (fun _ => ComplianceFailed)
    (fun _ _ => ExportRejected) ClipboardWritten
    true true true true true true true true true true true.

(** ** Navigation *)

(** The keys of the section objects of lines 121-131 and 1005-1015, in
    their order. *)
Definition section_keys : list string :=
  ["home"; "upload"; "search"; "rti"; "comparison"; "workflow";
   "grievance"; "compliance"; "analytics"].

(** [sections[key]]: the element of a section, as its [style.display];
    [None] where the page has no such element or the key is not one of
    the nine. The section elements of the page are a map from key to
    [style.display]. A key that names a property every object inherits
    is not a key of a navigation item. *)
Definition section_of (dom : gmap string string) (key : string)
    : option string :=
  if bool_decide (key ∈ section_keys) then dom !! key else None.

(** [forEach] over the sections: hide those that exist and that [which]
    selects. *)
Definition hide_sections (which : string -> bool) (dom : gmap string string)
    : gmap string string :=
  foldr (fun key d =>
           match section_of d key with
           | Some _ => if which key then <[key := "none"]> d else d
           | None => d
           end) dom section_keys.

(** [loadAnalyticsData()], lines 847-881, and [loadGrievances()], lines
    1551-1573: a request, whose answer is written to the page. *)
Definition loadAnalyticsData : list Event := [Request "/health"].
Definition loadGrievances : list Event := [Request "/grievance/list"].

(** The [click] listener [initializeNavigation] puts on a navigation
    item, lines 134-168; [key] is [item.dataset.section]. The classes of
    the navigation items are left out. *)
Definition navClickFirst (key : string) (dom : gmap string string)
    : gmap string string * list Event :=
  let hidden := hide_sections (fun _ => true) dom in
  match section_of hidden key with
  | Some _ =>
      let shown := <[key := "block"]> hidden in
      let shown :=
        if String.eqb key "home" then
          match section_of shown "upload" with
          | Some _ => <["upload" := "block"]> shown
          | None => shown
          end
        else shown in
      (shown, if String.eqb key "analytics" then loadAnalyticsData else [])
  | None => (hidden, [ConsoleError ("Section not found: " +:+ key)])
  end.

(** The [click] listener the second [DOMContentLoaded] handler puts on
    the same item, lines 1020-1043. *)
Definition navClickSecond (key : string) (dom : gmap string string)
    : gmap string string * list Event :=
  let hidden :=
    hide_sections
      (fun k => negb (String.eqb k "home") && negb (String.eqb k "upload"))
      dom in
  let shown :=
    match section_of hidden key with
    | Some _ => <[key := "block"]> hidden
    | None => hidden
    end in
  (shown,
   (if String.eqb key "analytics" then loadAnalyticsData else [])
     ++ (if String.eqb key "grievance" then loadGrievances else [])).

(** A click on a navigation item: its listeners run in the order they
    were added. *)
Definition onNavClick (key : string) (dom : gmap string string)
    : gmap string string * list Event :=
  let first := navClickFirst key dom in
  let second := navClickSecond key (fst first) in
  (fst second, snd first ++ snd second).

(** Whether a click on the item of [key] leaves the section [s] shown:
    the section of the item, when the page has it, and the upload
    section beside the home section. *)
Definition shown_after_click (dom : gmap string string) (key s : string)
    : bool :=
  match section_of dom key with
  | Some _ =>
      String.eqb s key || (String.eqb key "home" && String.eqb s "upload")
  | None => false
  end.

(** ** The workflow tracker *)

(** [arr.indexOf(x)] on an array of strings: the first index of [x], and
    -1 when [x] is not in the array ([None]: [undefined], equal to no
    string). *)
Fixpoint indexOf (arr : list string) (x : option string) : Z :=
  match arr with
  | [] => -1
  | y :: rest =>
      if bool_decide (Some y = x) then 0
      else let i := indexOf rest x in
           if i <? 0 then -1 else i + 1
  end.

(** [s.replace(c, r)] for one-character strings: the first occurrence
    only. *)
Fixpoint replace_first (c r : ascii) (s : string) : string :=
  match s with
  | EmptyString => EmptyString
  | String d s' =>
      if Ascii.eqb d c then String r s'
      else String d (replace_first c r s')
  end.

(** White space and line terminators among the 8-bit characters. *)
Definition is_space (c : ascii) : bool :=
  let n := N_of_ascii c in
  ((9 <=? n) && (n <=? 13) || (n =? 32) || (n =? 160))%N.

Fixpoint trim_start (s : string) : string :=
  match s with
  | EmptyString => EmptyString
  | String c s' => if is_space c then trim_start s' else s
  end.

(** What is left of [s] once its trailing white space is dropped. *)
Fixpoint trim_end (s : string) : string :=
  match s with
  | EmptyString => EmptyString
  | String c s' =>
      match trim_end s' with
      | EmptyString => if is_space c then EmptyString else String c EmptyString
      | rest => String c rest
      end
  end.

(** [s.trim()] *)
Definition trim (s : string) : string := trim_end (trim_start s).

(** Line 1473. *)
Definition workflow_steps : list string :=
  ["submitted"; "under_review"; "pending_approval"; "approved"; "archived"].

(** The class of the step at position [i], line 1494. *)
Definition step_class (currentIndex : Z) (i : nat) : string :=
  if Z.of_nat i <? currentIndex then "completed"
  else if Z.of_nat i =? currentIndex then "current"
  else "pending".

(** The classes of the five steps as [displayWorkflow] writes them,
    lines 1483 and 1493-1498. *)
Definition step_classes (current_status : option string) : list string :=
  imap (fun i _ => step_class (indexOf workflow_steps current_status) i)
    workflow_steps.

(** The body of a [/workflow/<id>] response, as far as it decides what
    the code does. *)
Inductive WorkflowBody :=
| WorkflowUnparsable
| WorkflowNull
| WorkflowObject (current_status : option string).

Inductive WorkflowResponse :=
| WorkflowRejected
| WorkflowResponded (ok : bool) (body : WorkflowBody).

Section Workflow.

Variable workflow_service : string -> WorkflowResponse.
Variable hasWorkflowDisplay : bool.       (* #workflowDisplay *)

(** [displayWorkflow(data)], lines 1469-1503. *)
Definition displayWorkflow (data : option (option string)) : M unit :=
  if negb hasWorkflowDisplay then ret tt
  else
    current_status <- deref data ;;
    emit (DomWrite "workflowDisplay") ;;
    status <- deref current_status ;;
    emit (Toast "info" "Workflow Loaded"
            ("Status: " +:+ replace_first "_" " " status)).

(** [trackWorkflow()], lines 1449-1467; [input] is the value of
    [#workflowDocId], [None] when the page has no such element. *)
Definition trackWorkflow (input : option string) : M unit :=
  let trimmed := trim (default "" input) in
  let docId := if truthy (Some trimmed) then trimmed else "DOC-2024-0001" in
  try_catch
    (emit (Request ("/workflow/" +:+ docId)) ;;
     match workflow_service docId with
     | WorkflowRejected => throw NetworkError
     | WorkflowResponded false _ =>
         emit (Toast "warning" "Not Found"
                 ("No workflow found for " +:+ docId))
     | WorkflowResponded true WorkflowUnparsable => throw SyntaxError
     | WorkflowResponded true WorkflowNull => displayWorkflow None
     | WorkflowResponded true (WorkflowObject current_status) =>
         displayWorkflow (Some current_status)
     end)
    (fun _ => emit (Toast "error" "Error" "Failed to fetch workflow")).

End Workflow.

(** ** Highlighting search results *)

(** The double quote, as a string. *)
Definition dquote : string := String (ascii_of_nat 34) EmptyString.

(** The text put before and behind a match by the replacement of line
    733. *)
Definition highlight_open : string :=
  "<span class=" +:+ dquote +:+ "search-highlight" +:+ dquote +:+ ">".
Definition highlight_close : string := "</span>".

(** A word of letters and digits: as a regular expression it matches
    itself, letter case aside, and nothing else. *)
Definition plain_char (c : ascii) : bool :=
  let n := N_of_ascii c in
  ((48 <=? n) && (n <=? 57) || (65 <=? n) && (n <=? 90)
   || (97 <=? n) && (n <=? 122))%N.

Fixpoint plain_word (w : string) : bool :=
  match w with
  | EmptyString => true
  | String c w' => plain_char c && plain_word w'
  end.

(** Does [text] start with [word], letter case aside? *)
Fixpoint starts_with_word (word text : string) : bool :=
  match word, text with
  | EmptyString, _ => true
  | String _ _, EmptyString => false
  | String p word', String c text' =>
      Ascii.eqb (JsString.lower_ascii c) (JsString.lower_ascii p)
      && starts_with_word word' text'
  end.

(** [text.replace(new RegExp('(' + word + ')', 'gi'), open + '$1' +
    close)] for a plain word: the text is read from the left; where the
    word starts, letter case aside, the match is copied between the two
    tags and reading goes on behind it. [inside] counts the characters
    of the current match still to copy. *)
Fixpoint replace_word_from (word : string) (inside : nat) (text : string)
    : string :=
  match text with
  | EmptyString => EmptyString
  | String c rest =>
      match inside with
      | S (S k) => String c (replace_word_from word (S k) rest)
      | 1%nat => String c (highlight_close +:+ replace_word_from word 0 rest)
      | O =>
          if starts_with_word word text then
            highlight_open
              +:+ String c
                    (match String.length word with
                     | S (S k) => replace_word_from word (S k) rest
                     | _ => highlight_close
                              +:+ replace_word_from word 0 rest
                     end)
          else String c (replace_word_from word 0 rest)
      end
  end.

Definition replace_word (word text : string) : string :=
  replace_word_from word 0 text.

(** [highlightText(text, query)], lines 726-738, for a query whose words
    longer than two characters are plain words. *)
Definition highlightText (text query : string) : string :=
  fold_left
    (fun highlighted word =>
       if (2 <? String.length word)%nat then replace_word word highlighted
       else highlighted)
    (JsString.split " " (JsString.toLowerCase query)) text.

(** "[result] is [text] with occurrences of [word], letter case aside,
    put between the two tags, and nothing else changed; a character is
    copied as it is only where the word does not start." *)
Inductive marked (word : string) : string -> string -> Prop :=
| marked_end : marked word EmptyString EmptyString
| marked_copy c text result :
    starts_with_word word (String c text) = false ->
    marked word text result ->
    marked word (String c text) (String c result)
| marked_hit hit text result :
    String.length hit = String.length word ->
    JsString.toLowerCase hit = JsString.toLowerCase word ->
    marked word text result ->
    marked word (hit +:+ text)
      (highlight_open +:+ hit +:+ highlight_close +:+ result).

(** Is every character of [s] white space? *)
Fixpoint all_space (s : string) : bool :=
  match s with
  | EmptyString => true
  | String c s' => is_space c && all_space s'
  end.

(** The first [n] characters of [s], and what follows them. *)
Fixpoint str_take (n : nat) (s : string) : string :=
  match n, s with
  | S n', String c s' => String c (str_take n' s')
  | _, _ => EmptyString
  end.

Fixpoint str_drop (n : nat) (s : string) : string :=
  match n, s with
  | S n', String _ s' => str_drop n' s'
  | _, _ => s
  end.

(** * Properties *)

Ltac case_summaries :=
  match goal with
  | |- context [summarize_all ?e ?k ?t] =>
      destruct (summarize_all e k t) as [|[?|]]
  end.


(** ** Strings: [split], [pop] and the extension of a name *)

Module JsStringFacts.
Import JsString.

Lemma split_nonempty sep s : split sep s <> [].
Proof.
  destruct s as [|c s]; simpl; [discriminate|].
  destruct (Ascii.eqb c sep); [discriminate|].
  destruct (split sep s); discriminate.
Qed.

(** Without a separator there is one piece, the string itself. *)
Lemma split_no_sep sep s : occurs sep s = false -> split sep s = [s].
Proof.
  induction s as [|c s IH]; simpl; [reflexivity|].
  intros H. apply orb_false_iff in H as [Hc Hs].
  rewrite Hc, (IH Hs). reflexivity.
Qed.

(** With a separator there are at least two pieces. *)
Lemma split_sep sep s :
  occurs sep s = true -> exists p q r, split sep s = p :: q :: r.
Proof.
  induction s as [|c s IH]; simpl; [discriminate|].
  destruct (Ascii.eqb c sep) eqn:Hc; simpl.
  - intros _. destruct (split sep s) as [|q r] eqn:Hs.
    + destruct (split_nonempty _ _ Hs).
    + eauto.
  - intros Hs. destruct (IH Hs) as (p & q & r & ->). eauto.
Qed.

Lemma after_final_dot_no_dot s :
  occurs "." s = false -> after_final_dot s = s.
Proof.
  destruct s as [|c s]; simpl; [reflexivity|].
  intros H. apply orb_false_iff in H as [Hc Hs].
  rewrite Hs, Hc. reflexivity.
Qed.

(** [name.split('.').pop()] is the substring after the final ['.']. *)
Lemma pop_split_dot s : pop (split "." s) = Some (after_final_dot s).
Proof.
  unfold pop. induction s as [|c s IH]; [reflexivity|].
  cbn [split after_final_dot].
  destruct (occurs "." s) eqn:Hs.
  - destruct (split_sep _ _ Hs) as (p & q & r & Hsp).
    rewrite Hsp in IH |- *.
    destruct (Ascii.eqb c "."); exact IH.
  - rewrite (split_no_sep _ _ Hs).
    destruct (Ascii.eqb c "."); reflexivity.
Qed.

(** The substring after the final ['.'] is what follows a ['.'] that
    no other ['.'] follows. *)
Lemma after_final_dot_app pre suf :
  occurs "." suf = false ->
  after_final_dot (pre +:+ String "." suf) = suf.
Proof.
  intros Hsuf. induction pre as [|c pre IH]; simpl.
  - rewrite Hsuf. reflexivity.
  - replace (occurs "." (pre +:+ String "." suf)) with true; [exact IH|].
    clear IH. induction pre as [|d pre IH]; simpl.
    + reflexivity.
    + rewrite <- IH. symmetry. apply orb_true_r.
Qed.

Lemma includes_In arr x : includes arr x = true <-> In x arr.
Proof.
  unfold includes. rewrite existsb_exists. split.
  - intros (y & Hy & Heq). apply String.eqb_eq in Heq. congruence.
  - intros H. exists x. split; [exact H | apply String.eqb_refl].
Qed.

End JsStringFacts.

(** The code's test on the dotted extension is the allow-list test on the
    extension. *)
Lemma isValidFile_recognized f : isValidFile f = recognized_file f.
Proof.
  unfold isValidFile, recognized_file, dotted_ext, extension.
  rewrite JsStringFacts.pop_split_dot. reflexivity.
Qed.

Lemma validFiles_recognized files :
  validFiles files = List.filter recognized_file files.
Proof.
  unfold validFiles. induction files as [|f files IH]; simpl.
  - reflexivity.
  - rewrite isValidFile_recognized, IH. reflexivity.
Qed.

(** In a name with a ['.'], [extension] is the lower-cased text behind the
    final one. *)
Lemma extension_after_final_dot pre suf :
  JsString.occurs "." suf = false ->
  extension (pre +:+ String "." suf) = JsString.toLowerCase suf.
Proof.
  intros H. unfold extension.
  rewrite JsStringFacts.after_final_dot_app by exact H. reflexivity.
Qed.

(** ** The stages of a queue *)

Section StageFacts.

Variable fin : nat -> QueueItem.t -> Status.
Variable q0 : list QueueItem.t.

Lemma progress_lookup k cur j :
  progress fin q0 k cur !! j
  = (fun it =>
       QueueItem.set_status
         (if (j <? k)%nat then fin j it
          else if (j =? k)%nat then cur else pending) it) <$> q0 !! j.
Proof. unfold progress. apply list_lookup_imap. Qed.

Lemma progress_length k cur : length (progress fin q0 k cur) = length q0.
Proof. unfold progress. apply length_imap. Qed.

(** [uploadQueue[k].status = s] at stage [k]. *)
Lemma alter_progress k cur s :
  alter (QueueItem.set_status s) k (progress fin q0 k cur)
  = progress fin q0 k s.
Proof.
  apply list_eq. intros j. destruct (decide (k = j)) as [->|Hne].
  - rewrite list_lookup_alter_eq, !progress_lookup.
    destruct (q0 !! j); simpl; [|reflexivity].
    rewrite Nat.ltb_irrefl, Nat.eqb_refl. reflexivity.
  - rewrite list_lookup_alter_ne by exact Hne.
    rewrite !progress_lookup.
    destruct (q0 !! j); simpl; [|reflexivity].
    destruct (j <? k)%nat; [reflexivity|].
    destruct (Nat.eqb_spec j k); [congruence | reflexivity].
Qed.

(** Resolving the item at [k] is moving to stage [k + 1]. *)
Lemma progress_resolved k it :
  q0 !! k = Some it ->
  progress fin q0 k (fin k it) = progress fin q0 (S k) pending.
Proof.
  intros Hk. apply list_eq. intros j. rewrite !progress_lookup.
  destruct (q0 !! j) as [jt|] eqn:Hj; simpl; [|reflexivity].
  destruct (Nat.ltb_spec j k), (Nat.ltb_spec j (S k)),
    (Nat.eqb_spec j k), (Nat.eqb_spec j (S k));
    try lia; try reflexivity.
  subst j. congruence.
Qed.

(** A queue of waiting items is at stage 0. *)
Lemma progress_start :
  Forall (fun it => QueueItem.status it = pending) q0 ->
  progress fin q0 0 pending = q0.
Proof.
  intros Hall. apply list_eq. intros j. rewrite progress_lookup.
  destruct (q0 !! j) as [jt|] eqn:Hj; simpl; [|reflexivity].
  rewrite Forall_lookup in Hall. specialize (Hall _ _ Hj).
  destruct jt; simpl in *. subst. destruct (j =? 0)%nat; reflexivity.
Qed.

(** Behind the last item every stage is the same. *)
Lemma progress_end k cur :
  (length q0 <= k)%nat ->
  progress fin q0 k cur = progress fin q0 (length q0) pending.
Proof.
  intros Hk. apply list_eq. intros j. rewrite !progress_lookup.
  destruct (q0 !! j) as [jt|] eqn:Hj; simpl; [|reflexivity].
  apply lookup_lt_Some in Hj.
  destruct (Nat.ltb_spec j k), (Nat.ltb_spec j (length q0));
    try lia; reflexivity.
Qed.

Lemma progress_files k cur :
  map QueueItem.file (progress fin q0 k cur) = map QueueItem.file q0.
Proof.
  apply list_eq. intros j.
  change (map QueueItem.file) with (fmap (M:=list) QueueItem.file).
  rewrite !list_lookup_fmap, progress_lookup.
  destruct (q0 !! j); reflexivity.
Qed.

End StageFacts.

(** ** One extraction call *)

(** What [handleFileUpload] does to the pipeline: one request, no
    snapshot, the queue untouched; it returns exactly when the call has
    status [done]; [docId] and [text] are overwritten exactly when the
    body was decoded. *)
Lemma handleFileUpload_spec env f st :
  let r := handleFileUpload env f st in
  uploadQueue (run_state r) = uploadQueue st /\
  ocrCalls (run_state r) = S (ocrCalls st) /\
  observable (run_events r) = [UploadOcr (ocrCalls st) f] /\
  doc_fields (currentDocument (run_state r))
  = match decoded env (ocrCalls st) f with
    | Some d => (doc_id d, text d)
    | None => doc_fields (currentDocument st)
    end /\
  match run_outcome r with
  | Return _ => call_status env (ocrCalls st) f = done
  | Throw _ => call_status env (ocrCalls st) f = error
  | OutOfFuel => False
  end.
Proof.
  unfold handleFileUpload, call_status, decoded, fetch_upload_ocr,
    displayOCRResults, generateSummaries, extractActions, loadStats,
    displaySummary, json, deref, run_state, run_outcome, run_events,
    doc_fields.
  unfold bind, try_catch, emit, get, ret, throw, set_currentDocument.
  cbn.
  destruct (upload_ocr env (ocrCalls st) f) as [|[|] [| |d]]; cbn;
    try (repeat split; reflexivity).
  destruct (metadata d) as [m|]; cbn; [|repeat split; reflexivity].
  destruct (hasTextStats env); cbn.
  - destruct (truthy (category d)); cbn;
      destruct (confidence d); cbn; try (repeat split; reflexivity);
      destruct (language m); cbn; try (repeat split; reflexivity);
      destruct (truthy (text d)) eqn:Ht; cbn; rewrite ?Ht; cbn;
      try (repeat split; reflexivity);
      case_summaries; cbn; rewrite ?Ht; cbn; repeat split; reflexivity.
  - destruct (truthy (text d)) eqn:Ht; cbn; rewrite ?Ht; cbn;
      try (repeat split; reflexivity);
      case_summaries; cbn; rewrite ?Ht; cbn; repeat split; reflexivity.
Qed.

(** ** One turn of the loop, and the loop *)

Section Loop.

Variable env : Env.
(** Number of the first extraction call of the batch. *)
Variable c0 : nat.
(** The queue as enqueued. *)
Variable q0 : list QueueItem.t.

Lemma observable_app l1 l2 :
  observable (l1 ++ l2) = observable l1 ++ observable l2.
Proof. unfold observable. apply List.filter_app. Qed.

Local Arguments handleFileUpload : simpl never.

Lemma processItem_spec i it st :
  q0 !! i = Some it ->
  uploadQueue st = progress (resolved env c0) q0 i pending ->
  ocrCalls st = (c0 + i)%nat ->
  let r := processItem env i st in
  run_outcome r = Return tt /\
  uploadQueue (run_state r) = progress (resolved env c0) q0 (S i) pending /\
  ocrCalls (run_state r) = (c0 + S i)%nat /\
  observable (run_events r)
  = [Render (progress (resolved env c0) q0 i processing);
     UploadOcr (c0 + i) (QueueItem.file it);
     Render (progress (resolved env c0) q0 (S i) pending)] /\
  doc_fields (currentDocument (run_state r))
  = match decoded env (c0 + i) (QueueItem.file it) with
    | Some d => (doc_id d, text d)
    | None => doc_fields (currentDocument st)
    end.
Proof.
  intros Hi Hq Hc.
  assert (Hlk : forall cur,
             progress (resolved env c0) q0 i cur !! i
             = Some (QueueItem.set_status cur it)).
  { intros cur. rewrite progress_lookup, Hi. simpl.
    rewrite Nat.ltb_irrefl, Nat.eqb_refl. reflexivity. }
  unfold processItem, set_item_status, renderUploadQueue, item_file.
  unfold bind, try_catch, get, emit, ret, throw, set_uploadQueue.
  cbn. rewrite Hq, Hlk. cbn. rewrite alter_progress, Hlk. cbn.
  set (st1 := mkState _ _ _).
  pose proof (handleFileUpload_spec env (QueueItem.file it) st1) as Hup.
  destruct (handleFileUpload env (QueueItem.file it) st1)
    as [[r st2] evs] eqn:Hrun.
  unfold run_state, run_outcome, run_events in *. cbn in Hup |- *.
  destruct Hup as (Hq2 & Hc2 & Hobs & Hdoc & Hr).
  subst st1. cbn in Hq2, Hc2, Hobs, Hdoc, Hr. rewrite Hc in *.
  assert (Hfilter : forall l, List.filter is_observable l = observable l)
    by reflexivity.
  destruct r as [data|e|]; [| |contradiction]; cbn;
    rewrite Hq2, Hlk; cbn; rewrite alter_progress;
    rewrite <- (progress_resolved (resolved env c0) q0 i it Hi);
    change (call_status env (c0 + i) (QueueItem.file it))
      with (resolved env c0 i it) in Hr;
    rewrite Hr, Hc2, Hfilter, !observable_app;
    unfold observable at 1; rewrite Hobs;
    repeat split; try (f_equal; lia); exact Hdoc.
Qed.

(** The loop, from any stage on: it returns, having resolved every
    item that was left. *)
Lemma processFrom_spec rest :
  forall pre st fuel,
    q0 = pre ++ rest ->
    uploadQueue st = progress (resolved env c0) q0 (length pre) pending ->
    ocrCalls st = (c0 + length pre)%nat ->
    (length rest <= fuel)%nat ->
    let r := processFrom env fuel (length pre) st in
    run_outcome r = Return tt /\
    uploadQueue (run_state r) = progress (resolved env c0) q0 (length q0) pending /\
    ocrCalls (run_state r) = (c0 + length q0)%nat /\
    observable (run_events r)
    = trace_from (resolved env c0) c0 q0 (length pre) rest /\
    doc_fields (currentDocument (run_state r))
    = stored env (c0 + length pre) (map QueueItem.file rest)
        (doc_fields (currentDocument st)).
Proof.
  induction rest as [|it rest IH]; intros pre st fuel Hq0 Hq Hc Hfuel.
  - rewrite app_nil_r in Hq0. subst pre.
    assert (Hstop : (length q0 <? length (uploadQueue st))%nat = false).
    { rewrite Hq, progress_length. apply Nat.ltb_irrefl. }
    unfold run_outcome, run_state, run_events.
    destruct fuel; cbn [processFrom]; rewrite Hstop; cbn;
      repeat split; assumption.
  - destruct fuel as [|fuel]; [cbn in Hfuel; lia|].
    assert (Hi : q0 !! length pre = Some it).
    { rewrite Hq0. rewrite lookup_app_r by lia.
      rewrite Nat.sub_diag. reflexivity. }
    assert (Hgo : (length pre <? length (uploadQueue st))%nat = true).
    { rewrite Hq, progress_length. apply Nat.ltb_lt.
      apply lookup_lt_Some in Hi. exact Hi. }
    pose proof (processItem_spec (length pre) it st Hi Hq Hc) as Hitem.
    cbn [processFrom]. rewrite Hgo. unfold bind.
    destruct (processItem env (length pre) st) as [[r1 st1] ev1].
    unfold run_outcome, run_state, run_events in Hitem.
    cbn [fst snd] in Hitem.
    destruct Hitem as (-> & Hq1 & Hc1 & Hobs1 & Hdoc1).
    specialize (IH (pre ++ [it]) st1 fuel).
    rewrite length_app in IH. cbn [length] in IH.
    rewrite Nat.add_1_r in IH.
    destruct IH as (Hr & Hq2 & Hc2 & Hobs2 & Hdoc2).
    + rewrite <- app_assoc. exact Hq0.
    + exact Hq1.
    + exact Hc1.
    + cbn in Hfuel. lia.
    + destruct (processFrom env fuel (S (length pre)) st1)
        as [[r2 st2] ev2].
      unfold run_outcome, run_state, run_events in *. cbn [fst snd] in *.
      repeat split; try assumption.
      * rewrite observable_app, Hobs1, Hobs2. reflexivity.
      * rewrite Hdoc2, Hdoc1.
        replace (c0 + S (length pre))%nat with (S (c0 + length pre)) by lia.
        reflexivity.
Qed.

End Loop.

(** ** The whole run *)

Lemma enqueue_files fs : map QueueItem.file (imap enqueue fs) = fs.
Proof.
  apply list_eq. intros j.
  change (map QueueItem.file) with (fmap (M:=list) QueueItem.file).
  rewrite list_lookup_fmap, list_lookup_imap.
  destruct (fs !! j); reflexivity.
Qed.

Lemma enqueue_pending fs :
  Forall (fun it => QueueItem.status it = pending) (imap enqueue fs).
Proof.
  apply Forall_lookup. intros j it Hj.
  rewrite list_lookup_imap in Hj.
  destruct (fs !! j); simpl in Hj; [|discriminate].
  injection Hj as <-. reflexivity.
Qed.

(** No recognized file: one toast, and nothing else happens. *)
Lemma handleMultipleFiles_rejects env files st :
  validFiles files = [] ->
  handleMultipleFiles env files st = (Return tt, st, [rejection_toast]).
Proof.
  intros Hnone. unfold handleMultipleFiles. rewrite Hnone. reflexivity.
Qed.

(** At least one recognized file: the run returns, and an observer sees
    the fresh queue, then every item in turn, then the completion
    toast. *)
Lemma handleMultipleFiles_runs env files st :
  validFiles files <> [] ->
  let q0 := imap enqueue (validFiles files) in
  let c0 := ocrCalls st in
  let r := handleMultipleFiles env files st in
  run_outcome r = Return tt /\
  uploadQueue (run_state r)
  = progress (resolved env c0) q0 (length q0) pending /\
  ocrCalls (run_state r) = (c0 + length q0)%nat /\
  observable (run_events r)
  = Render q0 :: trace_from (resolved env c0) c0 q0 0 q0
      ++ [completion_toast (length (validFiles files))] /\
  doc_fields (currentDocument (run_state r))
  = stored env c0 (validFiles files) (doc_fields (currentDocument st)).
Proof.
  intros Hsome q0 c0.
  assert (Hlen : (length (validFiles files) =? 0)%nat = false).
  { apply Nat.eqb_neq. destruct (validFiles files); [congruence|].
    discriminate. }
  unfold handleMultipleFiles. rewrite Hlen. fold q0.
  set (st1 := mkState q0 (currentDocument st) (ocrCalls st)).
  pose proof (processFrom_spec env c0 q0 q0 [] st1
                (length (validFiles files))) as Hloop.
  cbn [length app] in Hloop. rewrite Nat.add_0_r in Hloop.
  destruct Hloop as (Hr & Hq & Hc & Hobs & Hdoc).
  - reflexivity.
  - symmetry. apply progress_start, enqueue_pending.
  - reflexivity.
  - unfold q0. rewrite length_imap. reflexivity.
  - assert (Hfiles : map QueueItem.file q0 = validFiles files)
      by apply enqueue_files.
    rewrite Hfiles in Hdoc.
    fold (completion_toast (length (validFiles files))).
    unfold run_outcome, run_state, run_events in *.
    cbn -[processFrom completion_toast observable validFiles].
    fold st1. unfold bind, emit.
    destruct (processFrom env (length (validFiles files)) 0 st1)
      as [[r2 st2] ev2].
    cbn [fst snd] in *. subst r2. cbn [fst snd app].
    repeat split; try assumption.
    change (observable (Render q0 :: ?l)) with (Render q0 :: observable l).
    rewrite observable_app, Hobs. reflexivity.
Qed.

(** ** What the published snapshots look like *)

Lemma call_status_terminal env k f : terminal (call_status env k f) = true.
Proof.
  unfold call_status.
  destruct (upload_ocr env k f) as [|[|] [| |d]]; try reflexivity.
  destruct (metadata d) as [m|]; [|reflexivity].
  destruct (hasTextStats env); [|reflexivity].
  destruct (confidence d), (language m); reflexivity.
Qed.

Lemma renders_app l1 l2 : renders (l1 ++ l2) = renders l1 ++ renders l2.
Proof.
  induction l1 as [|e l1 IH]; [reflexivity|].
  destruct e; simpl; rewrite IH; reflexivity.
Qed.

(** Dropping what is not observable drops no snapshot. *)
Lemma renders_observable evs : renders (observable evs) = renders evs.
Proof.
  induction evs as [|e evs IH]; [reflexivity|].
  destruct e; simpl; rewrite ?IH; reflexivity.
Qed.

Section SnapshotFacts.

Variable fin : nat -> QueueItem.t -> Status.
Variable c0 : nat.
Variable q0 : list QueueItem.t.
Hypothesis fin_terminal : forall j it, terminal (fin j it) = true.

Lemma at_stage_le i j q : (i <= j)%nat -> at_stage fin q0 j q -> at_stage fin q0 i q.
Proof.
  intros Hij (k & cur & Hk & Hcur & ->). exists k, cur.
  repeat split; [lia | exact Hcur].
Qed.

Lemma trace_from_stages rest :
  forall i, Forall (at_stage fin q0 i) (renders (trace_from fin c0 q0 i rest)).
Proof.
  induction rest as [|it rest IH]; intros i; simpl; constructor.
  - exists i, processing. repeat split. lia.
  - constructor.
    + exists (S i), pending. repeat split. lia.
    + eapply Forall_impl; [apply (IH (S i))|].
      intros q Hq. apply (at_stage_le i (S i)); [lia | exact Hq].
Qed.

Lemma stage_status k cur p it :
  progress fin q0 k cur !! p = Some it ->
  exists it0,
    q0 !! p = Some it0 /\
    QueueItem.status it
    = (if (p <? k)%nat then fin p it0
       else if (p =? k)%nat then cur else pending).
Proof.
  rewrite progress_lookup. destruct (q0 !! p) as [it0|]; simpl; [|discriminate].
  intros [= <-]. exists it0. split; reflexivity.
Qed.

Lemma at_stage_single_in_flight i q : at_stage fin q0 i q -> single_in_flight q.
Proof.
  intros (k & cur & _ & _ & ->) a b ia ib Ha Hb Hsa Hsb.
  apply stage_status in Ha as (a0 & _ & Ea).
  apply stage_status in Hb as (b0 & _ & Eb).
  rewrite Hsa in Ea. rewrite Hsb in Eb.
  pose proof (fin_terminal a a0) as Ta. pose proof (fin_terminal b b0) as Tb.
  destruct (Nat.ltb_spec a k); [rewrite <- Ea in Ta; discriminate|].
  destruct (Nat.ltb_spec b k); [rewrite <- Eb in Tb; discriminate|].
  destruct (Nat.eqb_spec a k); [|discriminate].
  destruct (Nat.eqb_spec b k); [|discriminate].
  congruence.
Qed.

Lemma at_stage_one_at_a_time i q : at_stage fin q0 i q -> one_at_a_time q.
Proof.
  intros (k & cur & _ & _ & ->) a b ia ib Hab Ha Hb Hsb.
  apply stage_status in Ha as (a0 & _ & Ea).
  apply stage_status in Hb as (b0 & _ & Eb).
  rewrite Ea.
  destruct (Nat.ltb_spec a k); [apply fin_terminal|].
  exfalso. apply Hsb. rewrite Eb.
  destruct (Nat.ltb_spec b k); [lia|].
  destruct (Nat.eqb_spec b k); [lia | reflexivity].
Qed.

(** A later stage shows every resolved item as it was. *)
Lemma at_stage_keeps_resolved k cur q :
  terminal cur = false ->
  at_stage fin q0 k q -> keeps_resolved (progress fin q0 k cur) q.
Proof.
  intros Hcur (k' & cur' & Hk & _ & ->) p ia Ha Hterm.
  apply stage_status in Ha as (a0 & Hq0 & Ea).
  assert (Hp : (p < k)%nat).
  { destruct (Nat.ltb_spec p k); [assumption|].
    rewrite Ea in Hterm.
    destruct (p =? k)%nat; [congruence | discriminate]. }
  exists (QueueItem.set_status (fin p a0) a0). split.
  - rewrite progress_lookup, Hq0. simpl.
    destruct (Nat.ltb_spec p k'); [reflexivity | lia].
  - rewrite Ea. destruct (Nat.ltb_spec p k); [reflexivity | lia].
Qed.

Lemma trace_from_keeps_resolved rest :
  forall i,
    StronglySorted keeps_resolved (renders (trace_from fin c0 q0 i rest)).
Proof.
  induction rest as [|it rest IH]; intros i; simpl; [constructor|].
  pose proof (trace_from_stages rest (S i)) as Hlater.
  constructor; [constructor|].
  - apply IH.
  - eapply Forall_impl; [exact Hlater|]. intros q Hq.
    apply at_stage_keeps_resolved; [reflexivity | exact Hq].
  - constructor.
    + apply at_stage_keeps_resolved; [reflexivity|].
      exists (S i), pending. repeat split. lia.
    + eapply Forall_impl; [exact Hlater|]. intros q Hq.
      apply at_stage_keeps_resolved; [reflexivity|].
      apply (at_stage_le i (S i)); [lia | exact Hq].
Qed.

(** Where the item at position [j] of [rest] shows in the trace, and
    what was published last before it. *)
Lemma trace_from_item rest :
  forall i j it,
    rest !! j = Some it ->
    exists pre post,
      trace_from fin c0 q0 i rest
      = pre ++ Render (progress fin q0 (i + j) processing)
            :: UploadOcr (c0 + (i + j)) (QueueItem.file it)
            :: Render (progress fin q0 (S (i + j)) pending)
            :: post /\
      (forall k f, In (UploadOcr k f) pre -> (k < c0 + (i + j))%nat) /\
      (forall k f, In (UploadOcr k f) post -> (c0 + (i + j) < k)%nat) /\
      last (progress fin q0 i pending :: renders pre)
      = Some (progress fin q0 (i + j) pending).
Proof.
  induction rest as [|x rest IH]; intros i j it Hj; [discriminate|].
  destruct j as [|j]; simpl in Hj.
  - injection Hj as ->. exists [], (trace_from fin c0 q0 (S i) rest).
    rewrite Nat.add_0_r. repeat split.
    + intros k f [].
    + clear IH. generalize (S i), (Nat.lt_succ_diag_r i).
      induction rest as [|y rest IH]; intros n Hn k f Hin; simpl in Hin.
      * destruct Hin.
      * destruct Hin as [Hin|[Hin|[Hin|Hin]]]; try discriminate.
        -- injection Hin as <- _. lia.
        -- apply (IH (S n) ltac:(lia) k f Hin).
  - destruct (IH (S i) j it Hj) as (pre & post & Heq & Hpre & Hpost & Hlast).
    replace (i + S j)%nat with (S i + j)%nat by lia.
    exists (Render (progress fin q0 i processing)
              :: UploadOcr (c0 + i) (QueueItem.file x)
              :: Render (progress fin q0 (S i) pending) :: pre), post.
    repeat split.
    + simpl. rewrite Heq. reflexivity.
    + intros k f [Hin|[Hin|[Hin|Hin]]]; try discriminate.
      * injection Hin as <- _. lia.
      * apply (Hpre k f Hin).
    + exact Hpost.
    + exact Hlast.
Qed.

End SnapshotFacts.

(** ** Two runs, evaluated *)

(** Three files, the second request refused: seven snapshots, and the
    items end [done], [error], [done]. *)
Example run_second_refused :
  let r := handleMultipleFiles Sample.second_refused Sample.three
             initial_state in
  run_outcome r = Return tt /\
  map statuses (renders (run_events r))
  = [[pending; pending; pending];
     [processing; pending; pending]; [done; pending; pending];
     [done; processing; pending]; [done; error; pending];
     [done; error; processing]; [done; error; done]] /\
  doc_fields (currentDocument (run_state r))
  = (Some "c.jpg", Some "text of c.jpg").
Proof. vm_compute. repeat split. Qed.

(** Two files, the second answered by a body without [metadata]: the
    second item ends [error], and its [doc_id] and [text] are the current
    document. *)
Example run_second_bare :
  let r := handleMultipleFiles Sample.second_bare Sample.two
             initial_state in
  run_outcome r = Return tt /\
  statuses (uploadQueue (run_state r)) = [done; error] /\
  doc_fields (currentDocument (run_state r))
  = (Some "b.pdf", Some "text of b.pdf").
Proof. vm_compute. repeat split. Qed.

(** * The claims of the specification *)

(** ** Size labels *)

(** The tenths [toFixed1] prints for a non-negative ratio [n / d]. *)
Lemma tenths_of_ratio (n : Z) (d : positive) :
  0 <= n ->
  Qfloor (Qabs (inject_Z n / inject_Z (Zpos d)) * 10 + (1 # 2))%Q
  = (20 * n + Zpos d) / (2 * Zpos d).
Proof.
  intros Hn.
  assert (Hq : (Qabs (inject_Z n / inject_Z (Zpos d)) * 10 + (1 # 2)
                == (20 * n + Zpos d) # (2 * d))%Q).
  { rewrite Qabs_pos.
    - unfold Qeq, Qdiv, Qmult, Qplus, Qinv, inject_Z. simpl. lia.
    - unfold Qle, Qdiv, Qmult, Qinv, inject_Z. simpl. lia. }
  rewrite Hq. reflexivity.
Qed.

Lemma toFixed1_ratio (n : Z) (d : positive) :
  0 <= n ->
  exists t,
    JsNumber.toFixed1 (inject_Z n / inject_Z (Zpos d))%Q
    = pretty (t / 10) +:+ "." +:+ pretty (t mod 10) /\
    0 <= t /\
    2 * Z.abs (Zpos d * t - 10 * n) <= Zpos d.
Proof.
  intros Hn. exists ((20 * n + Zpos d) / (2 * Zpos d)). split; [|split].
  - unfold JsNumber.toFixed1. rewrite tenths_of_ratio by exact Hn.
    destruct (Qlt_le_dec _ 0) as [Hneg|_]; [|reflexivity].
    exfalso. revert Hneg.
    unfold Qlt, Qdiv, Qmult, Qinv, inject_Z. simpl. lia.
  - apply Z.div_pos; lia.
  - pose proof (Z.div_mod (20 * n + Zpos d) (2 * Zpos d) ltac:(lia)) as Hdm.
    pose proof (Z.mod_pos_bound (20 * n + Zpos d) (2 * Zpos d) ltac:(lia)).
    lia.
Qed.

(** C8. For a byte count [n >= 0], [formatFileSize n] is: below 1024,
    [n] itself followed by " B"; below 1024 * 1024, [n / 1024] to one
    decimal place followed by " KB"; otherwise [n / (1024 * 1024)] to one
    decimal place followed by " MB". "To one decimal place": the tenths
    [t] printed as [t / 10], ".", [t mod 10] are within half a tenth of
    the ratio. 500, 2048 and 5242880 give "500 B", "2.0 KB", "5.0 MB". *)
Theorem formatFileSize_rules (n : Z) :
  0 <= n ->
  (n < 1024 -> formatFileSize n = pretty n +:+ " B") /\
  (1024 <= n < 1024 * 1024 ->
   exists t,
     formatFileSize n
     = (pretty (t / 10) +:+ "." +:+ pretty (t mod 10)) +:+ " KB" /\
     0 <= t /\ 2 * Z.abs (1024 * t - 10 * n) <= 1024) /\
  (1024 * 1024 <= n ->
   exists t,
     formatFileSize n
     = (pretty (t / 10) +:+ "." +:+ pretty (t mod 10)) +:+ " MB" /\
     0 <= t /\ 2 * Z.abs (1024 * 1024 * t - 10 * n) <= 1024 * 1024) /\
  formatFileSize 500 = "500 B" /\
  formatFileSize 2048 = "2.0 KB" /\
  formatFileSize 5242880 = "5.0 MB".
Proof.
  intros Hn.
  split; [|split; [|split; [|repeat split; vm_compute; reflexivity]]];
    unfold formatFileSize.
  - intros Hlt. destruct (Z.ltb_spec n 1024); [reflexivity | lia].
  - intros [Hge Hlt].
    destruct (Z.ltb_spec n 1024); [lia|].
    destruct (Z.ltb_spec n (1024 * 1024)); [|lia].
    destruct (toFixed1_ratio n 1024 Hn) as (t & Ht & Hpos & Hnear).
    exists t. rewrite Ht. repeat split; assumption.
  - intros Hge.
    destruct (Z.ltb_spec n 1024); [lia|].
    destruct (Z.ltb_spec n (1024 * 1024)); [lia|].
    destruct (toFixed1_ratio n (1024 * 1024) Hn) as (t & Ht & Hpos & Hnear).
    exists t. change (1024 * 1024) with (Z.pos (1024 * 1024)).
    rewrite Ht. repeat split; assumption.
Qed.

Lemma formatFileSize_rules_witness :
  0 <= 2048 /\ formatFileSize 2048 = "2.0 KB".
Proof.
  assert (H : 0 <= 2048) by lia.
  split; [exact H|].
  exact (proj1 (proj2 (proj2 (proj2 (proj2 (formatFileSize_rules 2048 H)))))).
Defined.

(** ** The filter *)

(** C1. Whatever the batch, the files of the queue that is published are
    exactly the inputs whose extension is in the allow-list, in their
    original order: [validFiles] is that filter, the queue published first
    holds these files, and so does every later snapshot. Nothing is
    published when the filter keeps nothing. The extension is the
    lower-cased substring after the final ['.'] ([extension_after_final_dot]);
    for a name without ['.'] the substring is the whole name. *)
Theorem filter_correctness env files st :
  let kept := List.filter recognized_file files in
  let r := handleMultipleFiles env files st in
  validFiles files = kept /\
  enqueued (run_events r) = kept /\
  Forall (fun q => map QueueItem.file q = kept) (renders (run_events r)).
Proof.
  intros kept r. subst kept r.
  rewrite <- validFiles_recognized.
  destruct (validFiles files) as [|f fs] eqn:Hvalid.
  - rewrite (handleMultipleFiles_rejects env files st Hvalid).
    repeat split. constructor.
  - assert (Hsome : validFiles files <> []) by (rewrite Hvalid; discriminate).
    destruct (handleMultipleFiles_runs env files st Hsome)
      as (_ & _ & _ & Hobs & _).
    rewrite Hvalid in Hobs.
    unfold enqueued. rewrite <- renders_observable, Hobs.
    split; [reflexivity|]. split.
    + cbn [renders]. apply enqueue_files.
    + cbn [renders]. constructor; [apply enqueue_files|].
      rewrite renders_app, app_nil_r.
      eapply Forall_impl; [apply trace_from_stages|].
      intros q (k & cur & _ & _ & ->).
      rewrite progress_files. apply enqueue_files.
Qed.

(** C9, as the code has it. For a name without ['.'], the filter takes
    the whole name, lower-cased, as the extension: the file is kept
    exactly when its lower-cased name is one of pdf, png, jpg, jpeg,
    tiff. *)
Theorem dotless_names (f : File.t) :
  JsString.occurs "." (File.name f) = false ->
  dotted_ext (File.name f) = "." +:+ JsString.toLowerCase (File.name f) /\
  (isValidFile f = true <->
   In (JsString.toLowerCase (File.name f)) recognized).
Proof.
  intros Hdot.
  assert (Hext : dotted_ext (File.name f)
                 = "." +:+ JsString.toLowerCase (File.name f)).
  { unfold dotted_ext. rewrite JsStringFacts.pop_split_dot.
    rewrite JsStringFacts.after_final_dot_no_dot by exact Hdot.
    reflexivity. }
  split; [exact Hext|].
  unfold isValidFile. rewrite Hext.
  change (JsString.includes validTypes
            ("." +:+ JsString.toLowerCase (File.name f)))
    with (JsString.includes recognized
            (JsString.toLowerCase (File.name f))).
  apply JsStringFacts.includes_In.
Qed.

Lemma dotless_names_witness :
  JsString.occurs "." (File.name (Sample.file "Jpeg")) = false /\
  isValidFile (Sample.file "Jpeg") = true.
Proof.
  assert (H : JsString.occurs "." (File.name (Sample.file "Jpeg")) = false)
    by reflexivity.
  split; [exact H|].
  apply (proj2 (dotless_names (Sample.file "Jpeg") H)).
  vm_compute. tauto.
Defined.

(** C9, as the specification has it, fails: the dot-less name "PDF" is
    not one of the five names, and the filter keeps the file. *)
Lemma dotless_exact_names_counterexample :
  ~ (forall f : File.t,
        JsString.occurs "." (File.name f) = false ->
        (isValidFile f = true <-> In (File.name f) recognized)).
Proof.
  intros Hclaim.
  destruct (Hclaim (Sample.file "PDF") eq_refl) as [Hkept _].
  specialize (Hkept eq_refl). vm_compute in Hkept.
  repeat (destruct Hkept as [Hkept|Hkept]; [discriminate|]).
  exact Hkept.
Qed.

(** ** Rejection and enqueueing *)

(** C6. When no file of the batch passes the filter (the empty batch
    included), the run returns at once: its only effect is one error
    toast, "Invalid Files"; [uploadQueue], [currentDocument] and the
    request counter are what they were, no snapshot is published and no
    extraction call is made. *)
Theorem empty_batch_rejected env files st :
  List.filter recognized_file files = [] ->
  let r := handleMultipleFiles env files st in
  run_outcome r = Return tt /\
  run_state r = st /\
  run_events r = [rejection_toast] /\
  renders (run_events r) = [] /\
  (forall k f, ~ In (UploadOcr k f) (run_events r)) /\
  handleMultipleFiles env [] st = (Return tt, st, [rejection_toast]).
Proof.
  intros Hnone r. subst r.
  rewrite <- validFiles_recognized in Hnone.
  rewrite (handleMultipleFiles_rejects env files st Hnone).
  repeat split.
  intros k f [Hin|[]]. discriminate.
Qed.

Lemma empty_batch_rejected_witness :
  List.filter recognized_file Sample.unsupported = [] /\
  run_events (handleMultipleFiles Sample.reliable Sample.unsupported
                initial_state)
  = [rejection_toast].
Proof.
  assert (H : List.filter recognized_file Sample.unsupported = [])
    by reflexivity.
  split; [exact H|].
  exact (proj1 (proj2 (proj2
           (empty_batch_rejected Sample.reliable Sample.unsupported
              initial_state H)))).
Defined.

(** C5. With at least one recognized file, the first snapshot published
    is the queue of the filtered inputs in filter order: the item at
    position [i] has id [i], status [pending] and the [i]-th kept file.
    The queue is built from the batch alone, whatever [uploadQueue] held
    before, and it is the queue of the state the run ends in: as many
    items, the same files, the ids 0, 1, 2, ... The names b.pdf, a.png,
    c.txt, d.jpg give the queue b.pdf, a.png, d.jpg with ids 0, 1, 2. *)
Theorem enqueue_order env files st :
  List.filter recognized_file files <> [] ->
  let kept := List.filter recognized_file files in
  let q0 := imap enqueue kept in
  let r := handleMultipleFiles env files st in
  head (renders (run_events r)) = Some q0 /\
  (forall i it,
      q0 !! i = Some it ->
      QueueItem.id it = i /\ QueueItem.status it = pending /\
      kept !! i = Some (QueueItem.file it) /\
      QueueItem.name it = File.name (QueueItem.file it)) /\
  length q0 = length kept /\
  map QueueItem.file (uploadQueue (run_state r)) = kept /\
  map QueueItem.id (uploadQueue (run_state r)) = seq 0 (length kept) /\
  (forall z1 z2 z3 z4 b1 b2 b3 b4,
      let batch := [File.mk "b.pdf" z1 b1; File.mk "a.png" z2 b2;
                    File.mk "c.txt" z3 b3; File.mk "d.jpg" z4 b4] in
      map QueueItem.name (imap enqueue (validFiles batch))
      = ["b.pdf"; "a.png"; "d.jpg"] /\
      map QueueItem.id (imap enqueue (validFiles batch)) = [0; 1; 2]%nat).
Proof.
  intros Hsome kept q0 r. subst kept q0 r.
  rewrite <- validFiles_recognized in *.
  destruct (handleMultipleFiles_runs env files st Hsome)
    as (_ & Hq & _ & Hobs & _).
  split; [|split; [|split; [|split; [|split]]]].
  - rewrite <- renders_observable, Hobs. reflexivity.
  - intros i it Hit. rewrite list_lookup_imap in Hit.
    destruct (validFiles files !! i); simpl in Hit; [|discriminate].
    injection Hit as <-. repeat split.
  - apply length_imap.
  - rewrite Hq, progress_files. apply enqueue_files.
  - rewrite Hq. apply list_eq. intros j.
    change (map QueueItem.id) with (fmap (M:=list) QueueItem.id).
    rewrite list_lookup_fmap, progress_lookup, list_lookup_imap.
    destruct (validFiles files !! j) as [f|] eqn:Hj; simpl.
    + symmetry. apply lookup_seq. split; [reflexivity|].
      apply lookup_lt_Some in Hj. exact Hj.
    + symmetry. apply lookup_seq_ge. apply lookup_ge_None in Hj. exact Hj.
  - intros z1 z2 z3 z4 b1 b2 b3 b4 batch. split; reflexivity.
Qed.

Lemma enqueue_order_witness :
  List.filter recognized_file Sample.mixed_batch <> [] /\
  head (renders (run_events
                   (handleMultipleFiles Sample.reliable Sample.mixed_batch
                      initial_state)))
  = Some (imap enqueue (List.filter recognized_file Sample.mixed_batch)).
Proof.
  assert (H : List.filter recognized_file Sample.mixed_batch <> [])
    by discriminate.
  split; [exact H|].
  exact (proj1 (enqueue_order Sample.reliable Sample.mixed_batch
                  initial_state H)).
Defined.

(** ** The snapshots of a run *)

Lemma no_processing_count q :
  (forall j jt, q !! j = Some jt -> QueueItem.status jt <> processing) ->
  count_processing q = 0%nat.
Proof.
  unfold count_processing. induction q as [|it q IH]; intros Hq.
  - reflexivity.
  - simpl. pose proof (Hq 0%nat it eq_refl) as Hit.
    destruct (QueueItem.status it); try congruence; simpl;
      apply IH; intros j jt Hj; apply (Hq (S j) jt Hj).
Qed.

(** Two positions never both show [processing]: the count is at most
    one. *)
Lemma single_in_flight_count q :
  single_in_flight q -> (count_processing q <= 1)%nat.
Proof.
  induction q as [|it q IH]; intros Hq.
  - unfold count_processing. simpl. lia.
  - assert (Htail : single_in_flight q).
    { intros a b ia ib Ha Hb Hsa Hsb.
      assert (S a = S b) by (apply (Hq (S a) (S b) ia ib); assumption).
      lia. }
    destruct (QueueItem.status it) eqn:Hit;
      try (unfold count_processing in *; simpl; rewrite Hit; simpl;
           apply IH, Htail).
    assert (Hnone : count_processing q = 0%nat).
    { apply no_processing_count. intros j jt Hj Hproc.
      assert (0%nat = S j) by (apply (Hq 0%nat (S j) it jt); auto).
      discriminate. }
    unfold count_processing in *. simpl. rewrite Hit. simpl.
    rewrite Hnone. lia.
Qed.

(** Every snapshot of a run is a stage of the queue of that run. *)
Lemma run_snapshots_at_stage env files st :
  Forall (at_stage (resolved env (ocrCalls st))
            (imap enqueue (validFiles files)) 0)
    (renders (run_events (handleMultipleFiles env files st))).
Proof.
  destruct (validFiles files) as [|f fs] eqn:Hvalid.
  - rewrite (handleMultipleFiles_rejects env files st Hvalid). constructor.
  - assert (Hsome : validFiles files <> []) by (rewrite Hvalid; discriminate).
    destruct (handleMultipleFiles_runs env files st Hsome)
      as (_ & _ & _ & Hobs & _).
    rewrite Hvalid in Hobs.
    rewrite <- renders_observable, Hobs. cbn [renders].
    rewrite renders_app, app_nil_r. constructor.
    + exists 0%nat, pending. split; [lia|]. split; [reflexivity|].
      symmetry. apply progress_start, enqueue_pending.
    + apply trace_from_stages.
Qed.

Lemma resolved_terminal env c0 j it : terminal (resolved env c0 j it) = true.
Proof. apply call_status_terminal. Qed.

(** C2. In every snapshot a run publishes, at most one item has status
    [processing] (two positions that show it are the same position, and
    the count of such items is at most 1); and an item has left
    [pending] only when every item before it is [done] or [error]. *)
Theorem single_in_flight_invariant env files st :
  Forall (fun q =>
            single_in_flight q /\
            (count_processing q <= 1)%nat /\
            one_at_a_time q)
    (renders (run_events (handleMultipleFiles env files st))).
Proof.
  eapply Forall_impl; [apply run_snapshots_at_stage|].
  intros q Hq.
  assert (Hone : single_in_flight q).
  { eapply at_stage_single_in_flight; [apply resolved_terminal | exact Hq]. }
  split; [exact Hone|]. split.
  - apply single_in_flight_count, Hone.
  - eapply at_stage_one_at_a_time; [apply resolved_terminal | exact Hq].
Qed.

(** C3. Among the snapshots of a run, taken in the order they are
    published, an item that one snapshot shows as [done] or [error] is
    shown with that same status by every later snapshot, and has it in
    the queue the run leaves behind. *)
Theorem terminal_monotonicity env files st :
  let r := handleMultipleFiles env files st in
  StronglySorted keeps_resolved (renders (run_events r)) /\
  Forall (fun q => keeps_resolved q (uploadQueue (run_state r)))
    (renders (run_events r)).
Proof.
  intros r. subst r.
  destruct (validFiles files) as [|f fs] eqn:Hvalid.
  - rewrite (handleMultipleFiles_rejects env files st Hvalid).
    split; constructor.
  - assert (Hsome : validFiles files <> []) by (rewrite Hvalid; discriminate).
    pose proof (run_snapshots_at_stage env files st) as Hstages.
    destruct (handleMultipleFiles_runs env files st Hsome)
      as (_ & Hq & _ & Hobs & _).
    rewrite Hvalid in Hobs, Hq, Hstages. split.
    + rewrite <- renders_observable, Hobs. cbn [renders].
      rewrite renders_app, app_nil_r. constructor.
      * apply trace_from_keeps_resolved.
      * rewrite <- (progress_start (resolved env (ocrCalls st))
                      (imap enqueue (f :: fs)) (enqueue_pending _)) at 1.
        eapply Forall_impl; [apply trace_from_stages|].
        intros q Hstage.
        apply at_stage_keeps_resolved; [reflexivity | exact Hstage].
    + eapply Forall_impl; [exact Hstages|].
      intros q (k & cur & _ & Hcur & ->). rewrite Hq.
      apply at_stage_keeps_resolved; [exact Hcur|].
      destruct (Nat.le_gt_cases k (length (imap enqueue (f :: fs))))
        as [Hle|Hgt].
      * exists (length (imap enqueue (f :: fs))), pending.
        repeat split. exact Hle.
      * exists k, pending. repeat split; [lia|].
        symmetry. apply progress_end. lia.
Qed.

(** ** Transitions, failures, completion *)

(** C7. For the item at position [i] of the queue, with file [f], an
    observer sees, in this order: a snapshot with the item [pending];
    next a snapshot with the item [processing]; then the start of the
    extraction call for [f], which has not started before and does not
    start again; then, as the next thing observed, a snapshot with the
    item [done] or [error], as the call ended. *)
Theorem transitions_published env files st i f :
  List.filter recognized_file files !! i = Some f ->
  let r := handleMultipleFiles env files st in
  let c := (ocrCalls st + i)%nat in
  exists pre post qw qa qb iw ia ib,
    observable (run_events r)
    = pre ++ Render qa :: UploadOcr c f :: Render qb :: post /\
    last (renders pre) = Some qw /\
    qw !! i = Some iw /\ QueueItem.status iw = pending /\
    qa !! i = Some ia /\ QueueItem.file ia = f /\
    QueueItem.status ia = processing /\
    qb !! i = Some ib /\ QueueItem.file ib = f /\
    QueueItem.status ib = call_status env c f /\
    terminal (QueueItem.status ib) = true /\
    (forall k f', In (UploadOcr k f') pre -> (k < c)%nat) /\
    (forall k f', In (UploadOcr k f') post -> (c < k)%nat).
Proof.
  intros Hi r c. subst r c. rewrite <- validFiles_recognized in Hi.
  assert (Hsome : validFiles files <> []).
  { intros Hnil. rewrite Hnil in Hi. discriminate. }
  destruct (handleMultipleFiles_runs env files st Hsome)
    as (_ & _ & _ & Hobs & _).
  set (q0 := imap enqueue (validFiles files)) in *.
  set (fin := resolved env (ocrCalls st)) in *.
  assert (Hq0 : q0 !! i = Some (enqueue i f)).
  { unfold q0. rewrite list_lookup_imap, Hi. reflexivity. }
  destruct (trace_from_item fin (ocrCalls st) q0 q0 0 i _ Hq0)
    as (pre & post & Htrace & Hpre & Hpost & Hlast).
  cbn [Nat.add] in Htrace, Hpre, Hpost, Hlast.
  assert (Hstage : forall k cur,
             progress fin q0 k cur !! i
             = Some (QueueItem.set_status
                       (if (i <? k)%nat then fin i (enqueue i f)
                        else if (i =? k)%nat then cur else pending)
                       (enqueue i f))).
  { intros k cur. rewrite progress_lookup, Hq0. reflexivity. }
  exists (Render q0 :: pre), (post ++ [completion_toast (length (validFiles files))]).
  exists (progress fin q0 i pending), (progress fin q0 i processing),
    (progress fin q0 (S i) pending).
  eexists _, _, _.
  split; [|split; [|split; [|split; [|split; [|split; [|split;
    [|split; [|split; [|split; [|split; [|split]]]]]]]]]]].
  - rewrite Hobs, Htrace. cbn [app]. rewrite <- app_assoc. reflexivity.
  - cbn [renders]. rewrite <- Hlast. f_equal.
    unfold q0. rewrite progress_start by apply enqueue_pending.
    reflexivity.
  - apply Hstage.
  - simpl. rewrite Nat.ltb_irrefl, Nat.eqb_refl. reflexivity.
  - apply Hstage.
  - reflexivity.
  - simpl. rewrite Nat.ltb_irrefl, Nat.eqb_refl. reflexivity.
  - apply Hstage.
  - reflexivity.
  - simpl. destruct (Nat.ltb_spec i (S i)); [reflexivity | lia].
  - simpl. destruct (Nat.ltb_spec i (S i)); [|lia].
    apply resolved_terminal.
  - intros k f' [Hin|Hin]; [discriminate | apply (Hpre k f' Hin)].
  - intros k f' Hin. apply in_app_or in Hin as [Hin|[Hin|[]]].
    + apply (Hpost k f' Hin).
    + discriminate.
Qed.

Lemma transitions_published_witness :
  List.filter recognized_file Sample.three !! 1%nat
  = Some (Sample.file "b.png") /\
  exists pre post qa qb,
    observable (run_events
                  (handleMultipleFiles Sample.second_refused Sample.three
                     initial_state))
    = pre ++ Render qa :: UploadOcr 1 (Sample.file "b.png")
          :: Render qb :: post.
Proof.
  assert (H : List.filter recognized_file Sample.three !! 1%nat
              = Some (Sample.file "b.png")) by reflexivity.
  split; [exact H|].
  destruct (transitions_published Sample.second_refused Sample.three
              initial_state 1 (Sample.file "b.png") H)
    as (pre & post & qw & qa & qb & iw & ia & ib & Hobs & _).
  exists pre, post, qa, qb. exact Hobs.
Defined.

Lemma failed_call_error env k f :
  failed_call (upload_ocr env k f) = true -> call_status env k f = error.
Proof.
  unfold failed_call, call_status.
  destruct (upload_ocr env k f) as [|[|] [| |d]]; try reflexivity.
  destruct (metadata d); [discriminate | reflexivity].
Qed.

(** The statuses of the queue a run leaves behind: each item has the
    status its own call ended with. *)
Lemma final_statuses env c0 fs :
  statuses (progress (resolved env c0) (imap enqueue fs)
              (length (imap enqueue fs)) pending)
  = imap (fun i f => call_status env (c0 + i) f) fs.
Proof.
  apply list_eq. intros j. unfold statuses.
  change (map QueueItem.status) with (fmap (M:=list) QueueItem.status).
  rewrite list_lookup_fmap, progress_lookup, !list_lookup_imap, length_imap.
  destruct (fs !! j) as [f|] eqn:Hj; simpl; [|reflexivity].
  apply lookup_lt_Some in Hj.
  destruct (Nat.ltb_spec j (length fs)); [reflexivity | lia].
Qed.

(** C4. A run over a batch with recognized files returns normally. The
    queue it leaves behind gives every item the status of its own call:
    [error] when the call failed (network error, non-success response,
    malformed response), whatever the other calls did; every item got its
    call. The last thing observed is the completion toast with the number
    of filtered files. With three kept files whose second call fails and
    whose first and third succeed, the statuses are done, error, done and
    the toast reads "Processed 3 file(s)". *)
Theorem failure_isolation env files st :
  List.filter recognized_file files <> [] ->
  let kept := List.filter recognized_file files in
  let c0 := ocrCalls st in
  let r := handleMultipleFiles env files st in
  run_outcome r = Return tt /\
  statuses (uploadQueue (run_state r))
  = imap (fun i f => call_status env (c0 + i) f) kept /\
  (forall i f,
      kept !! i = Some f ->
      failed_call (upload_ocr env (c0 + i) f) = true ->
      statuses (uploadQueue (run_state r)) !! i = Some error) /\
  (forall i f,
      kept !! i = Some f ->
      In (UploadOcr (c0 + i) f) (observable (run_events r))) /\
  ocrCalls (run_state r) = (c0 + length kept)%nat /\
  last (observable (run_events r)) = Some (completion_toast (length kept)) /\
  (forall f1 f2 f3,
      kept = [f1; f2; f3] ->
      call_status env c0 f1 = done ->
      failed_call (upload_ocr env (c0 + 1) f2) = true ->
      call_status env (c0 + 2) f3 = done ->
      statuses (uploadQueue (run_state r)) = [done; error; done] /\
      last (observable (run_events r))
      = Some (Toast "success" "Upload Complete" "Processed 3 file(s)")).
Proof.
  intros Hsome kept c0 r. subst kept c0 r.
  rewrite <- validFiles_recognized in *.
  destruct (handleMultipleFiles_runs env files st Hsome)
    as (Hr & Hq & Hc & Hobs & _).
  rewrite length_imap in Hc.
  assert (Hst : statuses (uploadQueue
                  (run_state (handleMultipleFiles env files st)))
                = imap (fun i f => call_status env (ocrCalls st + i) f)
                    (validFiles files)).
  { rewrite Hq. apply final_statuses. }
  assert (Hlast : last (observable
                    (run_events (handleMultipleFiles env files st)))
                  = Some (completion_toast (length (validFiles files)))).
  { rewrite Hobs.
    change (Render ?q :: ?l ++ ?t) with ((Render q :: l) ++ t).
    apply last_snoc. }
  split; [exact Hr|]. split; [exact Hst|].
  split; [|split; [|split; [exact Hc|split; [exact Hlast|]]]].
  - intros i f Hi Hfail. rewrite Hst, list_lookup_imap, Hi. simpl.
    rewrite (failed_call_error _ _ _ Hfail). reflexivity.
  - intros i f Hi. rewrite Hobs.
    assert (Hq0 : imap enqueue (validFiles files) !! i = Some (enqueue i f)).
    { rewrite list_lookup_imap, Hi. reflexivity. }
    destruct (trace_from_item (resolved env (ocrCalls st)) (ocrCalls st)
                (imap enqueue (validFiles files)) _ 0 i _ Hq0)
      as (pre & post & Htrace & _).
    rewrite Htrace. right. apply in_or_app. left.
    apply in_or_app. right. right. left. reflexivity.
  - intros f1 f2 f3 Hkept H1 H2 H3.
    rewrite Hst, Hlast, Hkept. cbn [imap length]. unfold compose.
    rewrite Nat.add_0_r, H1, H3, (failed_call_error _ _ _ H2).
    split; reflexivity.
Qed.

Lemma failure_isolation_witness :
  List.filter recognized_file Sample.three <> [] /\
  statuses (uploadQueue
              (run_state (handleMultipleFiles Sample.second_refused
                            Sample.three initial_state)))
  = [done; error; done].
Proof.
  assert (H : List.filter recognized_file Sample.three <> [])
    by discriminate.
  split; [exact H|].
  destruct (failure_isolation Sample.second_refused Sample.three
              initial_state H) as (_ & _ & _ & _ & _ & _ & Hthree).
  apply (Hthree (Sample.file "a.pdf") (Sample.file "b.png")
           (Sample.file "c.jpg")); reflexivity.
Defined.

(** ** The current document *)

Lemma stored_undecoded env fs :
  forall k cur,
    (forall j f, fs !! j = Some f -> decoded env (k + j) f = None) ->
    stored env k fs cur = cur.
Proof.
  induction fs as [|f fs IH]; intros k cur Hnone; [reflexivity|].
  simpl. pose proof (Hnone 0%nat f eq_refl) as H0.
  rewrite Nat.add_0_r in H0. rewrite H0.
  apply IH. intros j g Hj.
  replace (S k + j)%nat with (k + S j)%nat by lia.
  apply (Hnone (S j) g Hj).
Qed.

(** The stored fields are those of the last body that was decoded. *)
Lemma stored_last_decoded env fs :
  forall k cur i f d,
    fs !! i = Some f ->
    decoded env (k + i) f = Some d ->
    (forall j g, (i < j)%nat -> fs !! j = Some g ->
                 decoded env (k + j) g = None) ->
    stored env k fs cur = (doc_id d, text d).
Proof.
  induction fs as [|x fs IH]; intros k cur i f d Hi Hd Hlater; [discriminate|].
  destruct i as [|i]; simpl in Hi.
  - injection Hi as ->. simpl. rewrite Nat.add_0_r in Hd. rewrite Hd.
    apply stored_undecoded. intros j g Hj.
    replace (S k + j)%nat with (k + S j)%nat by lia.
    apply (Hlater (S j) g); [lia | exact Hj].
  - simpl. apply (IH (S k) _ i f d Hi).
    + replace (S k + i)%nat with (k + S i)%nat by lia. exact Hd.
    + intros j g Hij Hj.
      replace (S k + j)%nat with (k + S j)%nat by lia.
      apply (Hlater (S j) g); [lia | exact Hj].
Qed.

Lemma call_done_decoded env k f :
  call_status env k f = done -> exists d, decoded env k f = Some d.
Proof.
  unfold call_status, decoded.
  destruct (upload_ocr env k f) as [|[|] [| |d]]; try discriminate.
  intros _. exists d. reflexivity.
Qed.

(** C10, as the code has it. After a batch with recognized files,
    [docId] and [text] of [currentDocument] are what the calls stored one
    after the other, each decoded response body overwriting the fields.
    Every item that ends [done] had its body decoded, so it did
    overwrite them. At the end the fields are those of the last body
    that was decoded, whether that item ended [done] or [error]; earlier
    results are gone. *)
Theorem current_document_last_decoded env files st :
  List.filter recognized_file files <> [] ->
  let kept := List.filter recognized_file files in
  let c0 := ocrCalls st in
  let r := handleMultipleFiles env files st in
  doc_fields (currentDocument (run_state r))
  = stored env c0 kept (doc_fields (currentDocument st)) /\
  (forall i f,
      kept !! i = Some f ->
      statuses (uploadQueue (run_state r)) !! i = Some done ->
      exists d, decoded env (c0 + i) f = Some d) /\
  (forall i f d,
      kept !! i = Some f ->
      decoded env (c0 + i) f = Some d ->
      (forall j g, (i < j)%nat -> kept !! j = Some g ->
                   decoded env (c0 + j) g = None) ->
      doc_fields (currentDocument (run_state r)) = (doc_id d, text d)).
Proof.
  intros Hsome kept c0 r. subst kept c0 r.
  rewrite <- validFiles_recognized in *.
  destruct (handleMultipleFiles_runs env files st Hsome)
    as (_ & Hq & _ & _ & Hdoc).
  split; [exact Hdoc|]. split.
  - intros i f Hi Hdone. rewrite Hq, final_statuses in Hdone.
    rewrite list_lookup_imap, Hi in Hdone. simpl in Hdone.
    injection Hdone as Hdone. apply (call_done_decoded _ _ _ Hdone).
  - intros i f d Hi Hd Hlater. rewrite Hdoc.
    apply (stored_last_decoded env _ _ _ i f d Hi Hd Hlater).
Qed.

Lemma current_document_last_decoded_witness :
  List.filter recognized_file Sample.two <> [] /\
  doc_fields (currentDocument
                (run_state (handleMultipleFiles Sample.second_bare
                              Sample.two initial_state)))
  = (Some "b.pdf", Some "text of b.pdf").
Proof.
  assert (H : List.filter recognized_file Sample.two <> []) by discriminate.
  split; [exact H|].
  destruct (current_document_last_decoded Sample.second_bare Sample.two
              initial_state H) as (_ & _ & Hlast).
  apply (Hlast 1%nat (Sample.file "b.pdf") (Sample.bare "b.pdf")).
  - reflexivity.
  - reflexivity.
  - intros j g Hij Hj. destruct j as [|[|j]]; [lia | lia | discriminate].
Defined.

(** C10, as the specification has it, fails: of two files, the first
    ends [done] and the second, answered by a body without [metadata],
    ends [error] after its [doc_id] and [text] were stored; the current
    document is then not that of the last item that is [done]. *)
Lemma holds_last_done_counterexample :
  ~ holds_last_done Sample.second_bare Sample.two initial_state.
Proof.
  intros Hclaim.
  specialize (Hclaim 0%nat (Sample.file "a.pdf") (Sample.full "a.pdf")
                eq_refl eq_refl).
  assert (Hlater : forall j, (0 < j)%nat ->
             statuses (uploadQueue
               (run_state (handleMultipleFiles Sample.second_bare
                             Sample.two initial_state))) !! j
             <> Some done).
  { intros j Hj. destruct j as [|[|j]]; [lia | discriminate | discriminate]. }
  specialize (Hclaim Hlater eq_refl).
  vm_compute in Hclaim. discriminate.
Qed.

(** * Further properties of the code *)

(** ** The filter and the icons *)

Lemma lower_ascii_dot c :
  Ascii.eqb (JsString.lower_ascii c) "." = Ascii.eqb c ".".
Proof. destruct c as [[] [] [] [] [] [] [] []]; reflexivity. Qed.

Lemma occurs_dot_toLowerCase s :
  JsString.occurs "." (JsString.toLowerCase s) = JsString.occurs "." s.
Proof.
  induction s as [|c s IH]; [reflexivity|].
  simpl. rewrite lower_ascii_dot, IH. reflexivity.
Qed.

(** Lower-casing a name and cutting it behind its final ['.'] commute. *)
Lemma after_final_dot_toLowerCase s :
  after_final_dot (JsString.toLowerCase s)
  = JsString.toLowerCase (after_final_dot s).
Proof.
  induction s as [|c s IH]; [reflexivity|].
  cbn [JsString.toLowerCase after_final_dot].
  rewrite occurs_dot_toLowerCase, lower_ascii_dot.
  destruct (JsString.occurs "." s); [exact IH|].
  destruct (Ascii.eqb c "."); reflexivity.
Qed.

(** X1. The filter does not see letter case: two files whose names are
    equal once lower-cased are both kept or both dropped. *)
Theorem filter_ignores_letter_case (f g : File.t) :
  JsString.toLowerCase (File.name f) = JsString.toLowerCase (File.name g) ->
  isValidFile f = isValidFile g.
Proof.
  intros Hsame. rewrite !isValidFile_recognized.
  unfold recognized_file, extension.
  rewrite <- !after_final_dot_toLowerCase, Hsame. reflexivity.
Qed.

Lemma filter_ignores_letter_case_witness :
  JsString.toLowerCase (File.name (Sample.file "Scan.PDF"))
  = JsString.toLowerCase (File.name (Sample.file "scan.pdf")) /\
  isValidFile (Sample.file "Scan.PDF") = isValidFile (Sample.file "scan.pdf").
Proof.
  assert (H : JsString.toLowerCase (File.name (Sample.file "Scan.PDF"))
              = JsString.toLowerCase (File.name (Sample.file "scan.pdf")))
    by reflexivity.
  split; [exact H|].
  exact (filter_ignores_letter_case _ _ H).
Defined.

(** X2. A file whose name ends in ['.'] is never kept, whatever precedes
    the dot: its extension is the empty string. So "scan.pdf." is
    dropped, and so is the empty name. *)
Theorem trailing_dot_rejected (stem : string) (size : Z) (blob : nat) :
  isValidFile (File.mk (stem +:+ ".") size blob) = false /\
  isValidFile (File.mk "" size blob) = false.
Proof.
  split; [|reflexivity].
  rewrite isValidFile_recognized. unfold recognized_file, extension.
  cbn [File.name].
  rewrite (JsStringFacts.after_final_dot_app stem "" eq_refl).
  reflexivity.
Qed.

Lemma getIcon_extension name :
  getIcon name
  = (if String.eqb (extension name) "pdf" then DocumentIcon
     else if JsString.includes ["png"; "jpg"; "jpeg"] (extension name)
          then ImageIcon
          else FolderIcon).
Proof.
  unfold getIcon, extension. rewrite JsStringFacts.pop_split_dot.
  reflexivity.
Qed.

(** X3. Of the files the filter keeps, the queue shows those with
    extension pdf with the document icon, those with png, jpg or jpeg
    with the image icon, and those with tiff, although recognized, with
    the icon of everything else. *)
Theorem kept_file_icon (f : File.t) :
  isValidFile f = true ->
  (getIcon (File.name f) = DocumentIcon <-> extension (File.name f) = "pdf") /\
  (getIcon (File.name f) = ImageIcon <->
   In (extension (File.name f)) ["png"; "jpg"; "jpeg"]) /\
  (getIcon (File.name f) = FolderIcon <-> extension (File.name f) = "tiff").
Proof.
  rewrite isValidFile_recognized. unfold recognized_file.
  rewrite JsStringFacts.includes_In, getIcon_extension.
  intros Hin. simpl in Hin.
  destruct Hin as [<-|[<-|[<-|[<-|[<-|[]]]]]]; cbn;
    (split; [|split]); split; intros H;
    first [ reflexivity
          | discriminate
          | simpl in H; intuition discriminate
          | simpl; auto ].
Qed.

Lemma kept_file_icon_witness :
  isValidFile (Sample.file "plan.TIFF") = true /\
  getIcon (File.name (Sample.file "plan.TIFF")) = FolderIcon.
Proof.
  assert (H : isValidFile (Sample.file "plan.TIFF") = true) by reflexivity.
  split; [exact H|].
  apply (proj2 (proj2 (kept_file_icon (Sample.file "plan.TIFF") H))).
  reflexivity.
Defined.

(** ** Size labels at the unit boundary *)

(** X4. The last 51 byte counts below 1024 * 1024 are labelled
    "1024.0 KB": the kilobyte branch rounds up to 1024.0 before the
    megabyte branch starts at "1.0 MB". *)
Theorem formatFileSize_rounds_to_1024_KB (n : Z) :
  1048525 <= n < 1048576 ->
  formatFileSize n = "1024.0 KB" /\
  formatFileSize 1048524 = "1023.9 KB" /\
  formatFileSize 1048576 = "1.0 MB".
Proof.
  intros Hn. split; [|split; vm_compute; reflexivity].
  unfold formatFileSize.
  destruct (Z.ltb_spec n 1024); [lia|].
  destruct (Z.ltb_spec n (1024 * 1024)); [|lia].
  unfold JsNumber.toFixed1. rewrite tenths_of_ratio by lia.
  assert (Ht : (20 * n + 1024) / (2 * 1024) = 10240).
  { symmetry. apply (Z.div_unique _ _ _ (20 * n + 1024 - 10240 * 2048)); lia. }
  rewrite Ht.
  destruct (Qlt_le_dec _ 0) as [Hneg|_]; [|reflexivity].
  exfalso. revert Hneg.
  unfold Qlt, Qdiv, Qmult, Qinv, inject_Z. simpl. lia.
Qed.

Lemma formatFileSize_rounds_to_1024_KB_witness :
  1048525 <= 1048575 < 1048576 /\ formatFileSize 1048575 = "1024.0 KB".
Proof.
  assert (H : 1048525 <= 1048575 < 1048576) by lia.
  split; [exact H|].
  exact (proj1 (formatFileSize_rounds_to_1024_KB 1048575 H)).
Defined.

(** ** What a run sends and shows *)

Lemma uploads_app l1 l2 : uploads (l1 ++ l2) = uploads l1 ++ uploads l2.
Proof.
  induction l1 as [|e l1 IH]; [reflexivity|].
  destruct e; simpl; rewrite IH; reflexivity.
Qed.

Lemma toasts_app l1 l2 : toasts (l1 ++ l2) = toasts l1 ++ toasts l2.
Proof.
  induction l1 as [|e l1 IH]; [reflexivity|].
  destruct e; simpl; rewrite IH; reflexivity.
Qed.

Lemma uploads_observable evs : uploads (observable evs) = uploads evs.
Proof.
  induction evs as [|e evs IH]; [reflexivity|].
  destruct e; simpl; rewrite ?IH; reflexivity.
Qed.

Lemma toasts_observable evs : toasts (observable evs) = toasts evs.
Proof.
  induction evs as [|e evs IH]; [reflexivity|].
  destruct e; simpl; rewrite ?IH; reflexivity.
Qed.

Lemma uploads_trace_from fin c0 q0 rest :
  forall i,
    uploads (trace_from fin c0 q0 i rest)
    = imap (fun j it => ((c0 + (i + j))%nat, QueueItem.file it)) rest.
Proof.
  induction rest as [|it rest IH]; intros i; [reflexivity|].
  cbn [trace_from uploads]. rewrite imap_cons, Nat.add_0_r, (IH (S i)).
  f_equal. apply imap_ext. intros j x _. unfold compose.
  f_equal. lia.
Qed.

Lemma toasts_trace_from fin c0 q0 rest :
  forall i, toasts (trace_from fin c0 q0 i rest) = [].
Proof.
  induction rest as [|it rest IH]; intros i; [reflexivity|].
  cbn [trace_from toasts]. apply IH.
Qed.

(** What every run, rejected or not, leaves behind and sends. *)
Lemma run_summary env files st :
  let kept := validFiles files in
  let r := handleMultipleFiles env files st in
  run_outcome r = Return tt /\
  ocrCalls (run_state r) = (ocrCalls st + length kept)%nat /\
  doc_fields (currentDocument (run_state r))
  = stored env (ocrCalls st) kept (doc_fields (currentDocument st)) /\
  uploads (run_events r)
  = imap (fun i f => ((ocrCalls st + i)%nat, f)) kept /\
  toasts (run_events r)
  = [match kept with
     | [] => rejection_toast
     | _ :: _ => completion_toast (length kept)
     end].
Proof.
  intros kept r. subst kept r.
  destruct (validFiles files) as [|f fs] eqn:Hvalid.
  - rewrite (handleMultipleFiles_rejects env files st Hvalid).
    cbn. rewrite Nat.add_0_r. repeat split.
  - assert (Hsome : validFiles files <> []) by (rewrite Hvalid; discriminate).
    destruct (handleMultipleFiles_runs env files st Hsome)
      as (Hr & _ & Hc & Hobs & Hdoc).
    rewrite Hvalid in Hc, Hobs, Hdoc. rewrite length_imap in Hc.
    split; [exact Hr|]. split; [exact Hc|]. split; [exact Hdoc|]. split.
    + rewrite <- uploads_observable, Hobs. cbn [uploads].
      rewrite uploads_app, uploads_trace_from, app_nil_r.
      apply list_eq. intros j. rewrite !list_lookup_imap.
      destruct ((f :: fs) !! j); reflexivity.
    + rewrite <- toasts_observable, Hobs. cbn [toasts].
      rewrite toasts_app, toasts_trace_from. reflexivity.
Qed.

(** X5. The extraction calls of a run are one call per kept file, in
    queue order, numbered on from the calls made before; a file the
    filter dropped is never uploaded, and no file is uploaded a second
    time after a failure. *)
Theorem uploads_are_the_kept_files env files st :
  let r := handleMultipleFiles env files st in
  uploads (run_events r)
  = imap (fun i f => ((ocrCalls st + i)%nat, f)) (validFiles files) /\
  length (uploads (run_events r)) = length (validFiles files) /\
  (forall k f, In (k, f) (uploads (run_events r)) ->
               In f files /\ isValidFile f = true).
Proof.
  intros r. subst r.
  destruct (run_summary env files st) as (_ & _ & _ & Hup & _).
  rewrite Hup. split; [reflexivity|]. split; [apply length_imap|].
  intros k f Hin. apply list_elem_of_In, list_elem_of_lookup in Hin.
  destruct Hin as (i & Hi). rewrite list_lookup_imap in Hi.
  destruct (validFiles files !! i) as [g|] eqn:Hg; [|discriminate].
  injection Hi as _ <-.
  apply list_elem_of_lookup_2, list_elem_of_In in Hg.
  unfold validFiles in Hg. apply List.filter_In in Hg. exact Hg.
Qed.

Lemma uploads_are_the_kept_files_witness :
  In (1%nat, Sample.file "b.pdf")
    (uploads (run_events
                (handleMultipleFiles Sample.reliable Sample.two
                   initial_state))) /\
  In (Sample.file "b.pdf") Sample.two /\
  isValidFile (Sample.file "b.pdf") = true.
Proof.
  assert (H : In (1%nat, Sample.file "b.pdf")
                (uploads (run_events
                            (handleMultipleFiles Sample.reliable Sample.two
                               initial_state)))).
  { rewrite (proj1 (uploads_are_the_kept_files Sample.reliable Sample.two
                      initial_state)).
    right. left. reflexivity. }
  split; [exact H|].
  exact (proj2 (proj2 (uploads_are_the_kept_files Sample.reliable Sample.two
                         initial_state)) _ _ H).
Defined.

(** X6. A snapshot differs from the queue as enqueued in the statuses
    only: ids, files, names and size labels are those given at enqueue
    time, in every snapshot of a run. *)
Theorem snapshots_change_status_only env files st :
  Forall (fun q =>
            map (QueueItem.set_status pending) q
            = imap enqueue (validFiles files))
    (renders (run_events (handleMultipleFiles env files st))).
Proof.
  eapply Forall_impl; [apply run_snapshots_at_stage|].
  intros q (k & cur & _ & _ & ->).
  apply list_eq. intros j.
  change (map (QueueItem.set_status pending))
    with (fmap (M:=list) (QueueItem.set_status pending)).
  rewrite list_lookup_fmap, progress_lookup, list_lookup_imap.
  destruct (validFiles files !! j); reflexivity.
Qed.

(** X7. Every run shows exactly one toast. It is the error toast when no
    file is kept; otherwise it is the success toast "Upload Complete"
    with the number of kept files, whatever the statuses of the items,
    also when every extraction call failed. *)
Theorem one_toast_per_run env files st :
  let r := handleMultipleFiles env files st in
  toasts (run_events r)
  = [match validFiles files with
     | [] => rejection_toast
     | _ :: _ => completion_toast (length (validFiles files))
     end] /\
  (validFiles files <> [] ->
   (forall i f, validFiles files !! i = Some f ->
                call_status env (ocrCalls st + i) f = error) ->
   Forall (fun s => s = error) (statuses (uploadQueue (run_state r))) /\
   toasts (run_events r)
   = [completion_toast (length (validFiles files))]).
Proof.
  intros r. subst r.
  destruct (run_summary env files st) as (_ & _ & _ & _ & Htoast).
  split; [exact Htoast|].
  intros Hsome Hall. split.
  - destruct (handleMultipleFiles_runs env files st Hsome)
      as (_ & Hq & _).
    rewrite Hq, final_statuses. apply Forall_lookup. intros i s Hi.
    rewrite list_lookup_imap in Hi.
    destruct (validFiles files !! i) as [f|] eqn:Hf; [|discriminate].
    injection Hi as <-. apply (Hall i f Hf).
  - rewrite Htoast. destruct (validFiles files); [congruence | reflexivity].
Qed.

Lemma one_toast_per_run_witness :
  validFiles Sample.two <> [] /\
  toasts (run_events
            (handleMultipleFiles
               (mkEnv (fun _ _ => FetchRejected) Sample.summaries_ok true)
               Sample.two initial_state))
  = [completion_toast 2].
Proof.
  assert (H : validFiles Sample.two <> []) by discriminate.
  split; [exact H|].
  apply (proj2 (one_toast_per_run
                  (mkEnv (fun _ _ => FetchRejected) Sample.summaries_ok true)
                  Sample.two initial_state) H).
  reflexivity.
Defined.

(** ** The current document across uploads *)

Lemma stored_app env a :
  forall k b cur,
    stored env k (a ++ b) cur
    = stored env (k + length a) b (stored env k a cur).
Proof.
  induction a as [|f a IH]; intros k b cur; simpl.
  - rewrite Nat.add_0_r. reflexivity.
  - rewrite IH. f_equal. lia.
Qed.

Lemma validFiles_app a b : validFiles (a ++ b) = validFiles a ++ validFiles b.
Proof. unfold validFiles. apply List.filter_app. Qed.

(** X8. Submitting two batches one after the other leaves [docId] and
    [text] of the current document, and the count of extraction calls,
    as submitting the two batches as one does (the service answering
    each request as before). *)
Theorem batches_compose env files1 files2 st :
  let r1 := handleMultipleFiles env files1 st in
  let r2 := handleMultipleFiles env files2 (run_state r1) in
  let r := handleMultipleFiles env (files1 ++ files2) st in
  doc_fields (currentDocument (run_state r2))
  = doc_fields (currentDocument (run_state r)) /\
  ocrCalls (run_state r2) = ocrCalls (run_state r) /\
  uploads (run_events r1) ++ uploads (run_events r2) = uploads (run_events r).
Proof.
  intros r1 r2 r. subst r1 r2 r.
  destruct (run_summary env files1 st) as (_ & Hc1 & Hd1 & Hu1 & _).
  destruct (run_summary env files2
              (run_state (handleMultipleFiles env files1 st)))
    as (_ & Hc2 & Hd2 & Hu2 & _).
  destruct (run_summary env (files1 ++ files2) st)
    as (_ & Hc & Hd & Hu & _).
  rewrite Hd2, Hd1, Hc1, Hd, Hc2, Hc1, Hc, Hu1, Hu2, Hc1, Hu.
  rewrite validFiles_app, stored_app, length_app, imap_app.
  repeat split; [lia|].
  f_equal. apply imap_ext. intros i f _. f_equal. lia.
Qed.

(** X9. What one extraction call leaves in the current document, when
    the body of its response is decoded: [docId] and [text] are the
    body's. The category is replaced only when the body has [metadata],
    the page has the stats element and the body's category is not
    empty, and the summaries only when the call ended well, the text is
    not empty and [/summarize-all] answered; otherwise the category and
    the summaries of the document before stay beside the new [docId]. *)
Theorem stale_category_and_summaries env f st d :
  upload_ocr env (ocrCalls st) f = Response true (JsonObject d) ->
  let st' := run_state (handleFileUpload env f st) in
  docId (currentDocument st') = doc_id d /\
  doc_text (currentDocument st') = text d /\
  doc_category (currentDocument st')
  = (if hasTextStats env && truthy (category d)
        && bool_decide (metadata d <> None)
     then category d
     else doc_category (currentDocument st)) /\
  doc_summaries (currentDocument st')
  = (if Status_eqb (call_status env (ocrCalls st) f) done
        && truthy (text d)
     then match summarize_all env (S (ocrCalls st)) (text d) with
          | SummaryBody s => s
          | SummaryFailed => doc_summaries (currentDocument st)
          end
     else doc_summaries (currentDocument st)).
Proof.
  intros Hresp.
  unfold handleFileUpload, call_status, fetch_upload_ocr,
    displayOCRResults, generateSummaries, extractActions, loadStats,
    displaySummary, json, deref, run_state.
  unfold bind, try_catch, emit, get, ret, throw, set_currentDocument.
  cbn. rewrite Hresp. cbn.
  destruct (metadata d) as [m|]; cbn;
    [|rewrite andb_false_r; repeat split; reflexivity].
  rewrite andb_true_r.
  destruct (hasTextStats env); cbn.
  - destruct (truthy (category d)); cbn;
      destruct (confidence d); cbn; try (repeat split; reflexivity);
      destruct (language m); cbn; try (repeat split; reflexivity);
      destruct (truthy (text d)) eqn:Ht; cbn; rewrite ?Ht; cbn;
      try (repeat split; reflexivity);
      case_summaries; cbn; rewrite ?Ht; cbn; repeat split; reflexivity.
  - destruct (truthy (text d)) eqn:Ht; cbn; rewrite ?Ht; cbn;
      try (repeat split; reflexivity);
      case_summaries; cbn; rewrite ?Ht; cbn; repeat split; reflexivity.
Qed.

Lemma stale_category_and_summaries_witness :
  upload_ocr Sample.second_bare
    (ocrCalls (mkState [] (mkDocument (Some "old") (Some "old text")
                             (Some "old summaries") (Some "Circular")) 1))
    (Sample.file "b.pdf")
  = Response true (JsonObject (Sample.bare "b.pdf")) /\
  doc_category
    (currentDocument
       (run_state
          (handleFileUpload Sample.second_bare (Sample.file "b.pdf")
             (mkState [] (mkDocument (Some "old") (Some "old text")
                            (Some "old summaries") (Some "Circular")) 1))))
  = Some "Circular".
Proof.
  split; [reflexivity|].
  destruct (stale_category_and_summaries Sample.second_bare
              (Sample.file "b.pdf")
              (mkState [] (mkDocument (Some "old") (Some "old text")
                             (Some "old summaries") (Some "Circular")) 1)
              (Sample.bare "b.pdf") eq_refl) as (_ & _ & Hcategory & _).
  rewrite Hcategory. reflexivity.
Defined.

(** ** Extraction for comparison and compliance *)

(** The text [uploadAndExtractText] gives for a response. *)
Lemma uploadAndExtractText_run env f st :
  uploadAndExtractText env f st
  = match upload_ocr env (ocrCalls st) f with
    | Response _ (JsonObject d) =>
        (Return (default "" (text d)),
         mkState (uploadQueue st) (currentDocument st) (S (ocrCalls st)),
         [UploadOcr (ocrCalls st) f])
    | _ =>
        (Return "",
         mkState (uploadQueue st) (currentDocument st) (S (ocrCalls st)),
         [UploadOcr (ocrCalls st) f;
          Toast "error" "Error" "Failed to extract text"])
    end.
Proof.
  unfold uploadAndExtractText, fetch_upload_ocr, json, deref.
  unfold bind, try_catch, emit, ret, throw. cbn.
  destruct (upload_ocr env (ocrCalls st) f) as [|ok [| |d]]; reflexivity.
Qed.

(** X10. [uploadAndExtractText] never throws and always makes exactly
    one extraction call. It returns the [text] of the response body
    whenever the body is a JSON object, also when the response is not a
    success; it returns the empty string, after an error toast, when the
    request is rejected, the body cannot be parsed or the body is null.
    It leaves the upload queue and the current document alone. *)
Theorem uploadAndExtractText_total env f st :
  let r := uploadAndExtractText env f st in
  let answer := upload_ocr env (ocrCalls st) f in
  run_outcome r
  = Return (match answer with
            | Response _ (JsonObject d) => default "" (text d)
            | _ => ""
            end) /\
  uploadQueue (run_state r) = uploadQueue st /\
  currentDocument (run_state r) = currentDocument st /\
  uploads (run_events r) = [(ocrCalls st, f)] /\
  toasts (run_events r)
  = match answer with
    | Response _ (JsonObject _) => []
    | _ => [Toast "error" "Error" "Failed to extract text"]
    end.
Proof.
  intros r answer. subst r answer. rewrite uploadAndExtractText_run.
  destruct (upload_ocr env (ocrCalls st) f) as [|ok [| |d]];
    repeat split.
Qed.

(** X11. The two readers of [/upload-ocr] disagree on a response that is
    not a success and carries a body: [handleFileUpload] throws, the
    item ends [error] and the current document is untouched, while
    [uploadAndExtractText] accepts the body's text without a toast. *)
Theorem non_success_response_read_twice env f st d :
  upload_ocr env (ocrCalls st) f = Response false (JsonObject d) ->
  run_outcome (handleFileUpload env f st) = Throw UploadFailed /\
  call_status env (ocrCalls st) f = error /\
  currentDocument (run_state (handleFileUpload env f st))
  = currentDocument st /\
  run_outcome (uploadAndExtractText env f st)
  = Return (default "" (text d)) /\
  toasts (run_events (uploadAndExtractText env f st)) = [].
Proof.
  intros Hresp. rewrite uploadAndExtractText_run.
  unfold call_status, handleFileUpload, fetch_upload_ocr.
  unfold bind, emit, throw, run_outcome, run_state. cbn.
  rewrite Hresp. repeat split.
Qed.

Lemma non_success_response_read_twice_witness :
  upload_ocr
    (mkEnv (fun _ f => Response false (JsonObject (Sample.full (File.name f))))
       Sample.summaries_ok true)
    (ocrCalls initial_state) (Sample.file "a.pdf")
  = Response false (JsonObject (Sample.full "a.pdf")) /\
  run_outcome
    (uploadAndExtractText
       (mkEnv (fun _ f => Response false
                            (JsonObject (Sample.full (File.name f))))
          Sample.summaries_ok true)
       (Sample.file "a.pdf") initial_state)
  = Return "text of a.pdf".
Proof.
  split; [reflexivity|].
  exact (proj1 (proj2 (proj2 (proj2
           (non_success_response_read_twice
              (mkEnv (fun _ f => Response false
                                   (JsonObject (Sample.full (File.name f))))
                 Sample.summaries_ok true)
              (Sample.file "a.pdf") initial_state (Sample.full "a.pdf")
              eq_refl))))).
Defined.

(** ** Comparison *)

Lemma truthy_Some_false s : truthy (Some s) = false <-> s = "".
Proof.
  unfold truthy. destruct (String.eqb_spec s ""); simpl; split;
    intros; congruence.
Qed.

(** X12. [compareDocuments] never throws and never changes the page's
    variables. It sends [/compare] exactly when both document texts are
    non-empty; otherwise all it does is show the warning toast "Missing
    Documents". *)
Theorem compare_needs_both_documents penv pg :
  let r := compareDocuments penv pg in
  prun_outcome r = Return tt /\
  prun_page r = pg /\
  (In "/compare" (page_requests (prun_events r)) <->
   compareDoc1Text pg <> "" /\ compareDoc2Text pg <> "") /\
  (compareDoc1Text pg = "" \/ compareDoc2Text pg = "" ->
   prun_events r
   = [Core (Toast "warning" "Missing Documents"
              "Please upload both documents first")]).
Proof.
  intros r. subst r.
  unfold compareDocuments, displayComparisonResults, showToast, pderef.
  unfold pbind, ptry, pemit, pget, pret, pthrow,
    prun_outcome, prun_page, prun_events.
  cbn -[truthy].
  destruct (truthy (Some (compareDoc1Text pg))) eqn:H1;
    destruct (truthy (Some (compareDoc2Text pg))) eqn:H2; cbn -[truthy];
    try (apply truthy_Some_false in H1);
    try (apply truthy_Some_false in H2).
  2-4: (split; [reflexivity|]; split; [reflexivity|]; split;
        [split; [intros [] | intros [Ha Hb]; congruence]
        | intros _; reflexivity]).
  assert (Hne1 : compareDoc1Text pg <> "").
  { intros Heq. rewrite Heq in H1. discriminate. }
  assert (Hne2 : compareDoc2Text pg <> "").
  { intros Heq. rewrite Heq in H2. discriminate. }
  destruct (compare_service penv _ _) as [|[d|]]; cbn;
    destruct (hasComparisonResults penv); cbn;
    destruct (hasDoc1Content penv); cbn;
    try (destruct (doc1_diff d)); cbn;
    destruct (hasDoc2Content penv); cbn;
    try (destruct (doc2_diff d)); cbn;
    (split; [reflexivity|]; split; [destruct pg; reflexivity|]; split;
     [split; [intros _; split; assumption | intros _; left; reflexivity]
     | intros [Heq|Heq]; congruence]).
Qed.

Lemma compare_needs_both_documents_witness :
  (compareDoc1Text (mkPage initial_state "" "second" ∅) = "" \/
   compareDoc2Text (mkPage initial_state "" "second" ∅) = "") /\
  forall penv,
    page_requests
      (prun_events (compareDocuments penv
                      (mkPage initial_state "" "second" ∅)))
    = [].
Proof.
  assert (H : compareDoc1Text (mkPage initial_state "" "second" ∅) = "" \/
              compareDoc2Text (mkPage initial_state "" "second" ∅) = "")
    by (left; reflexivity).
  split; [exact H|].
  intros penv.
  rewrite (proj2 (proj2 (proj2
             (compare_needs_both_documents penv
                (mkPage initial_state "" "second" ∅)))) H).
  reflexivity.
Defined.

(** X13. When the extraction for the first comparison document fails
    (request rejected, body unparsable or null), the [change] listener
    still stores a text, the empty one, over whatever was loaded before,
    and still announces "First document ready" after the error toast; a
    comparison started next is refused with "Missing Documents" and
    sends nothing. *)
Theorem failed_extraction_announced_as_loaded env penv f pg :
  hasCompareZone1 penv = true ->
  (forall ok d, upload_ocr env (ocrCalls (core pg)) f
                <> Response ok (JsonObject d)) ->
  let r := onCompareDoc1Change env penv (Some f) pg in
  prun_outcome r = Return tt /\
  compareDoc1Text (prun_page r) = "" /\
  page_toasts (prun_events r)
  = [Toast "error" "Error" "Failed to extract text";
     Toast "success" "Loaded" "First document ready"] /\
  prun_events (compareDocuments penv (prun_page r))
  = [Core (Toast "warning" "Missing Documents"
             "Please upload both documents first")].
Proof.
  intros Hzone Hfail r. subst r.
  unfold onCompareDoc1Change, compareDocuments, showToast.
  unfold pbind, ptry, pemit, pget, pput, pret, pthrow,
    prun_outcome, prun_page, prun_events, lift.
  cbv beta. rewrite uploadAndExtractText_run.
  destruct (upload_ocr env (ocrCalls (core pg)) f) as [|ok [| |d]];
    try (exfalso; apply (Hfail ok d); reflexivity);
    cbn; rewrite Hzone; cbn; repeat split.
Qed.

Lemma failed_extraction_announced_as_loaded_witness :
  hasCompareZone1
    (mkPageEnv (fun _ _ => CompareFailed) (fun _ => ComplianceFailed)
       (fun _ _ => ExportRejected) ClipboardWritten
       true true true true true true true true true true true) = true /\
  compareDoc1Text
    (prun_page
       (onCompareDoc1Change
          (mkEnv (fun _ _ => FetchRejected) Sample.summaries_ok true)
          (mkPageEnv (fun _ _ => CompareFailed) (fun _ => ComplianceFailed)
             (fun _ _ => ExportRejected) ClipboardWritten
             true true true true true true true true true true true)
          (Some (Sample.file "a.pdf"))
          (mkPage initial_state "first, loaded before" "second" ∅)))
  = "".
Proof.
  split; [reflexivity|].
  apply (failed_extraction_announced_as_loaded
           (mkEnv (fun _ _ => FetchRejected) Sample.summaries_ok true)).
  - reflexivity.
  - intros ok d. discriminate.
Defined.

(** ** The compliance check *)

Lemma page_requests_app l1 l2 :
  page_requests (l1 ++ l2) = page_requests l1 ++ page_requests l2.
Proof.
  induction l1 as [|e l1 IH]; [reflexivity|].
  destruct e as [[]| |]; simpl; rewrite IH; reflexivity.
Qed.

Lemma page_toasts_app l1 l2 :
  page_toasts (l1 ++ l2) = page_toasts l1 ++ page_toasts l2.
Proof.
  induction l1 as [|e l1 IH]; [reflexivity|].
  destruct e as [[]| |]; simpl; rewrite IH; reflexivity.
Qed.

Lemma sends_nothing_pret {A} (a : A) : sends_nothing (pret a).
Proof. intros pg. split; [reflexivity | discriminate]. Qed.

Lemma sends_nothing_pthrow {A} e : sends_nothing (@pthrow A e).
Proof. intros pg. split; [reflexivity | discriminate]. Qed.

Lemma sends_nothing_pget : sends_nothing pget.
Proof. intros pg. split; [reflexivity | discriminate]. Qed.

Lemma sends_nothing_pput pg' : sends_nothing (pput pg').
Proof. intros pg. split; [reflexivity | discriminate]. Qed.

Lemma sends_nothing_pemit e : is_request e = false -> sends_nothing (pemit e).
Proof.
  intros He pg. split; [|discriminate].
  destruct e as [[]| |]; try reflexivity; discriminate.
Qed.

Lemma sends_nothing_pderef {A} (x : option A) : sends_nothing (pderef x).
Proof.
  destruct x; [apply sends_nothing_pret | apply sends_nothing_pthrow].
Qed.

Lemma sends_nothing_pbind {A B} (m : P A) (k : A -> P B) :
  sends_nothing m -> (forall a, sends_nothing (k a)) ->
  sends_nothing (pbind m k).
Proof.
  intros Hm Hk pg. specialize (Hm pg). unfold pbind.
  destruct (m pg) as [[[a|e|] pg1] ev1];
    unfold prun_events, prun_outcome in *; cbn [fst snd] in *.
  - specialize (Hk a pg1).
    destruct (k a pg1) as [[r pg2] ev2].
    unfold prun_events, prun_outcome in *. cbn [fst snd] in *.
    rewrite page_requests_app. destruct Hm as [-> _], Hk as [-> Hr].
    split; [reflexivity | exact Hr].
  - split; [apply Hm | discriminate].
  - destruct Hm as [_ Hm]. congruence.
Qed.

Lemma sends_nothing_if {A} (b : bool) (m1 m2 : P A) :
  sends_nothing m1 -> sends_nothing m2 ->
  sends_nothing (if b then m1 else m2).
Proof. destruct b; auto. Qed.

Ltac sends_nothing_steps :=
  repeat first
    [ apply sends_nothing_pret
    | apply sends_nothing_pthrow
    | apply sends_nothing_pget
    | apply sends_nothing_pput
    | apply sends_nothing_pderef
    | apply sends_nothing_pemit; reflexivity
    | apply sends_nothing_if
    | apply sends_nothing_pbind; [|intros ?] ].

Lemma displayComplianceResults_sends_nothing penv data :
  sends_nothing (displayComplianceResults penv data).
Proof.
  unfold displayComplianceResults, showConfetti, showToast.
  sends_nothing_steps.
Qed.

(** The [try] block never throws and sends its one request. *)
Lemma requestCompliance_run penv extracted pg :
  let r := requestCompliance penv extracted pg in
  prun_outcome r = Return tt /\
  page_requests (prun_events r) = ["/compliance/check"].
Proof.
  unfold requestCompliance, showToast, ptry, pbind, pemit, pthrow.
  destruct (compliance_service penv extracted) as [|data].
  - split; reflexivity.
  - destruct (displayComplianceResults_sends_nothing penv data pg)
      as [Hreq Hout].
    destruct (displayComplianceResults penv data pg)
      as [[[[]|e|] pg1] ev1];
      unfold prun_events, prun_outcome in *; cbn [fst snd] in *;
      [| |congruence];
      (split; [reflexivity|]); cbn [snd];
      rewrite ?page_requests_app, ?Hreq; reflexivity.
Qed.

Lemma checkDocumentCompliance_steps env penv f pg :
  checkDocumentCompliance env penv f pg
  = let checking :=
      Core (Toast "info" "Checking..." "Analyzing document compliance") in
    let call := Core (UploadOcr (ocrCalls (core pg)) f) in
    let pg1 :=
      mkPage (mkState (uploadQueue (core pg)) (currentDocument (core pg))
                (S (ocrCalls (core pg))))
        (compareDoc1Text pg) (compareDoc2Text pg) (meterClasses pg) in
    match upload_ocr env (ocrCalls (core pg)) f with
    | Response _ (JsonObject d) =>
        if truthy (Some (default "" (text d))) then
          match requestCompliance penv (default "" (text d)) pg1 with
          | (r, pg2, evs) => (r, pg2, checking :: call :: evs)
          end
        else (Return tt, pg1, [checking; call])
    | _ =>
        (Return tt, pg1,
         [checking; call;
          Core (Toast "error" "Error" "Failed to extract text")])
    end.
Proof.
  unfold checkDocumentCompliance, showToast, pbind, pemit, lift.
  rewrite uploadAndExtractText_run.
  destruct (upload_ocr env (ocrCalls (core pg)) f) as [|ok [| |d]];
    try reflexivity.
  cbn -[truthy requestCompliance].
  destruct (truthy (Some (default "" (text d)))); cbn -[requestCompliance].
  - destruct (requestCompliance penv (default "" (text d)) _)
      as [[r pg2] evs].
    reflexivity.
  - reflexivity.
Qed.

(** X14. [checkDocumentCompliance] never throws. It always makes the
    extraction call, and asks [/compliance/check] only when the
    extracted text is not empty. With an empty text it stops without a
    word: after "Checking..." there is the error toast of the extraction
    if that failed, and no toast at all if the body simply had no
    text. *)
Theorem compliance_check_needs_text env penv f pg :
  let r := checkDocumentCompliance env penv f pg in
  let answer := upload_ocr env (ocrCalls (core pg)) f in
  let extracted :=
    match answer with
    | Response _ (JsonObject d) => default "" (text d)
    | _ => ""
    end in
  prun_outcome r = Return tt /\
  page_requests (prun_events r)
  = "/upload-ocr"
      :: (if truthy (Some extracted) then ["/compliance/check"] else []) /\
  (extracted = "" ->
   meterClasses (prun_page r) = meterClasses pg /\
   page_toasts (prun_events r)
   = Toast "info" "Checking..." "Analyzing document compliance"
       :: match answer with
          | Response _ (JsonObject _) => []
          | _ => [Toast "error" "Error" "Failed to extract text"]
          end).
Proof.
  intros r answer extracted. subst r answer extracted.
  rewrite checkDocumentCompliance_steps. cbv zeta.
  destruct (upload_ocr env (ocrCalls (core pg)) f) as [|ok [| |d]];
    try (repeat split; reflexivity).
  destruct (truthy (Some (default "" (text d)))) eqn:Ht.
  - match goal with
    | |- context [requestCompliance ?pe ?t ?p] =>
        destruct (requestCompliance_run pe t p) as [Hout Hreq];
        destruct (requestCompliance pe t p) as [[r1 pg1] ev1]
    end.
    unfold prun_events, prun_outcome in *. cbn [fst snd] in *.
    subst r1. split; [reflexivity|]. split.
    + cbn [page_requests]. rewrite Hreq. reflexivity.
    + intros Hempty. rewrite Hempty in Ht. discriminate.
  - repeat split.
Qed.

Lemma compliance_check_needs_text_witness :
  default "" (text (mkOcrData (Some "scan") None None None None)) = "" /\
  page_toasts
    (prun_events
       (checkDocumentCompliance
          (mkEnv (fun _ _ => Response true
                    (JsonObject (mkOcrData (Some "scan") None None None None)))
             Sample.summaries_ok true)
          Sample_penv (Sample.file "a.pdf") (page_of initial_state)))
  = [Toast "info" "Checking..." "Analyzing document compliance"].
Proof.
  split; [reflexivity|].
  exact (proj2 (proj2 (proj2
           (compliance_check_needs_text
              (mkEnv (fun _ _ => Response true
                        (JsonObject
                           (mkOcrData (Some "scan") None None None None)))
                 Sample.summaries_ok true)
              Sample_penv (Sample.file "a.pdf") (page_of initial_state)))
           eq_refl)).
Defined.

Lemma js_lt_Some q bound :
  js_lt (Some q) bound = true <-> (q < inject_Z bound)%Q.
Proof.
  unfold js_lt. destruct (Qlt_le_dec q (inject_Z bound)) as [Hlt|Hge].
  - tauto.
  - split; [discriminate|]. intros Hlt.
    exfalso. apply (Qlt_not_le _ _ Hlt Hge).
Qed.

Lemma js_ge_Some q bound :
  js_ge (Some q) bound = true <-> (inject_Z bound <= q)%Q.
Proof.
  unfold js_ge. destruct (Qlt_le_dec q (inject_Z bound)) as [Hlt|Hge].
  - split; [discriminate|]. intros Hge.
    exfalso. apply (Qlt_not_le _ _ Hlt Hge).
  - tauto.
Qed.

(** What [displayComplianceResults] leaves in the class list of the
    meter, when the results panel and the meter are on the page. *)
Lemma displayComplianceResults_meter penv d pg :
  hasComplianceResults penv = true ->
  hasComplianceMeter penv = true ->
  meterClasses (prun_page (displayComplianceResults penv (Some d) pg))
  = (if js_lt (score d) 50
     then meterClasses pg ∖ {["low"; "medium"]} ∪ {["low"]}
     else if js_lt (score d) 75
          then meterClasses pg ∖ {["low"; "medium"]} ∪ {["medium"]}
          else meterClasses pg ∖ {["low"; "medium"]}).
Proof.
  intros Hpanel Hmeter.
  unfold displayComplianceResults, showConfetti, showToast, pderef.
  unfold pbind, pemit, pget, pput, pret, pthrow, prun_page.
  rewrite Hpanel, Hmeter. cbn -[js_lt js_ge show_round].
  destruct (hasComplianceProgress penv), (hasComplianceValue penv),
    (hasComplianceChecklist penv), (hasEsignStatus penv),
    (checks d), (js_ge (score d) 90);
    cbn -[js_lt js_ge show_round];
    destruct (js_lt (score d) 50), (js_lt (score d) 75); reflexivity.
Qed.

#[local] Set Warnings "-clear-no-such-hyp".

Lemma meter_update_classes (old : gset string) (below50 below75 : bool) :
  let classes :=
    if below50 then old ∖ {["low"; "medium"]} ∪ {["low"]}
    else if below75 then old ∖ {["low"; "medium"]} ∪ {["medium"]}
         else old ∖ {["low"; "medium"]} in
  ("low" ∈ classes <-> below50 = true) /\
  ("medium" ∈ classes <-> below50 = false /\ below75 = true) /\
  (forall c, c <> "low" -> c <> "medium" -> (c ∈ classes <-> c ∈ old)).
Proof.
  assert (Hlm : "low" <> "medium") by discriminate.
  destruct below50, below75; cbv zeta; set_solver.
Qed.

(** X15. After a compliance result is shown (results panel and meter on
    the page), the meter has class "low" exactly when the score is below
    50 and class "medium" exactly when it is at least 50 and below 75;
    never both, and neither when the score is missing. A "low" or
    "medium" left by an earlier check does not survive, and every other
    class of the meter is kept. This holds also when showing the result
    fails later on. *)
Theorem compliance_meter_classes penv d pg :
  hasComplianceResults penv = true ->
  hasComplianceMeter penv = true ->
  let classes :=
    meterClasses (prun_page (displayComplianceResults penv (Some d) pg)) in
  match score d with
  | Some q =>
      ("low" ∈ classes <-> (q < 50)%Q) /\
      ("medium" ∈ classes <-> (50 <= q)%Q /\ (q < 75)%Q)
  | None => ("low" ∉ classes) /\ ("medium" ∉ classes)
  end /\
  ~ ("low" ∈ classes /\ "medium" ∈ classes) /\
  (forall c, c <> "low" -> c <> "medium" ->
             (c ∈ classes <-> c ∈ meterClasses pg)).
Proof.
  intros Hpanel Hmeter classes. subst classes.
  rewrite (displayComplianceResults_meter penv d pg Hpanel Hmeter).
  destruct (meter_update_classes (meterClasses pg)
              (js_lt (score d) 50) (js_lt (score d) 75))
    as (Hlow & Hmedium & Hother).
  cbv zeta in Hlow, Hmedium, Hother.
  split; [|split; [|exact Hother]].
  - destruct (score d) as [q|].
    + rewrite Hlow, Hmedium.
      pose proof (js_lt_Some q 50) as H50.
      pose proof (js_lt_Some q 75) as H75.
      change (inject_Z 50) with 50%Q in H50.
      change (inject_Z 75) with 75%Q in H75.
      split; [exact H50|].
      rewrite H75. split.
      * intros [Hnot Hlt]. split; [|exact Hlt].
        apply Qnot_lt_le. intros Hq. apply H50 in Hq. congruence.
      * intros [Hge Hlt]. split; [|exact Hlt].
        destruct (js_lt (Some q) 50) eqn:E; [|reflexivity].
        exfalso. apply (Qlt_not_le q 50); [apply H50; reflexivity | exact Hge].
    + rewrite Hlow, Hmedium. cbn. split; [discriminate|].
      intros [_ Hfalse]. discriminate.
  - rewrite Hlow, Hmedium. intros [Ha [Hb _]]. congruence.
Qed.

Lemma compliance_meter_classes_witness :
  hasComplianceResults Sample_penv = true /\
  hasComplianceMeter Sample_penv = true /\
  "low" ∉ (meterClasses
             (prun_page
                (displayComplianceResults Sample_penv
                   (Some (mkComplianceData (Some (62 # 1)) "C" None false))
                   (mkPage initial_state "" "" {["low"; "wide"]})))).
Proof.
  split; [reflexivity|]. split; [reflexivity|].
  destruct (compliance_meter_classes Sample_penv
              (mkComplianceData (Some (62 # 1)) "C" None false)
              (mkPage initial_state "" "" {["low"; "wide"]})
              eq_refl eq_refl) as [[Hlow _] _].
  intros Hin. apply Hlow in Hin. revert Hin.
  unfold Qlt. simpl. lia.
Defined.

(** ** Saving the extracted text *)

(** X16. After any batch, [downloadText] hands the browser what the
    pipeline stored last in the current document: the text of the last
    decoded response body, under the name of its [doc_id] ("document"
    when that is missing or empty), also when the item that brought it
    ended [error]. When the text is missing or empty there is no
    download, only the warning toast "No Content". *)
Theorem download_after_batch env files st doc1 doc2 classes :
  let r := handleMultipleFiles env files st in
  let pg := mkPage (run_state r) doc1 doc2 classes in
  let fields :=
    stored env (ocrCalls st) (validFiles files)
      (doc_fields (currentDocument st)) in
  prun_events (downloadText pg)
  = if truthy (snd fields) then
      [Download
         (TextFile (if truthy (fst fields) then default "" (fst fields)
                    else "document"))
         (TextPayload (default "" (snd fields)));
       Core (Toast "success" "Downloaded" "Text file saved successfully")]
    else
      [Core (Toast "warning" "No Content" "Please upload a document first")].
Proof.
  intros r pg fields. subst r pg fields.
  destruct (run_summary env files st) as (_ & _ & Hdoc & _).
  rewrite <- Hdoc.
  unfold downloadText, docId_or_document, showToast, doc_fields.
  unfold pbind, pemit, pget, prun_events. cbn -[truthy].
  destruct (truthy (doc_text _)); reflexivity.
Qed.

(** X17. With a non-empty current text, [downloadPDF] never throws,
    asks the export service once and hands the browser exactly one file:
    the PDF when the service answers with a success whose body can be
    read, and otherwise, whatever went wrong, the text file, with the
    "Downloaded" toast of [downloadText] followed by a "Fallback"
    toast. *)
Theorem downloadPDF_always_one_file penv pg :
  truthy (doc_text (currentDocument (core pg))) = true ->
  let d := currentDocument (core pg) in
  let answer := export_service penv (docId d) (doc_text d) in
  let r := downloadPDF penv pg in
  prun_outcome r = Return tt /\
  prun_page r = pg /\
  page_requests (prun_events r) = ["/export/pdf"] /\
  page_downloads (prun_events r)
  = [match answer with
     | ExportResponded true true => (PdfFile (docId d), ServerBlob)
     | _ => (TextFile (docId_or_document d),
             TextPayload (default "" (doc_text d)))
     end] /\
  page_toasts (prun_events r)
  = match answer with
    | ExportResponded true true =>
        [Toast "success" "Downloaded" "PDF saved successfully"]
    | ExportResponded false _ =>
        [Toast "success" "Downloaded" "Text file saved successfully";
         Toast "info" "Fallback" "Downloaded as text (PDF not available)"]
    | _ =>
        [Toast "success" "Downloaded" "Text file saved successfully";
         Toast "info" "Fallback" "Downloaded as text file"]
    end.
Proof.
  intros Htext d answer r. subst d answer r.
  unfold downloadPDF, downloadText, showToast.
  unfold pbind, ptry, pemit, pget, pret, pthrow,
    prun_outcome, prun_page, prun_events.
  cbn -[truthy docId_or_document]. rewrite Htext.
  cbn -[truthy docId_or_document].
  destruct (export_service penv _ _) as [|[|] [|]];
    cbn -[truthy docId_or_document]; rewrite ?Htext;
    cbn -[truthy docId_or_document]; repeat split.
Qed.

Lemma downloadPDF_always_one_file_witness :
  truthy (doc_text (currentDocument
            (core (page_of (mkState []
                     (mkDocument None (Some "text") None None) 0)))))
  = true /\
  page_downloads
    (prun_events
       (downloadPDF Sample_penv
          (page_of (mkState [] (mkDocument None (Some "text") None None) 0))))
  = [(TextFile "document", TextPayload "text")].
Proof.
  split; [reflexivity|].
  exact (proj1 (proj2 (proj2 (proj2
           (downloadPDF_always_one_file Sample_penv
              (page_of (mkState []
                          (mkDocument None (Some "text") None None) 0))
              eq_refl))))).
Defined.

(** ** Navigation *)

Lemma hide_keys_lookup (which : string -> bool) (dom : gmap string string)
    (keys : list string) (s : string) :
  Forall (fun k => k ∈ section_keys) keys ->
  foldr (fun key d =>
           match section_of d key with
           | Some _ => if which key then <[key := "none"]> d else d
           | None => d
           end) dom keys !! s
  = if bool_decide (s ∈ keys) && which s
    then (fun _ => "none") <$> dom !! s
    else dom !! s.
Proof.
  induction keys as [|k keys IH]; intros Hkeys.
  - reflexivity.
  - apply Forall_cons in Hkeys as [Hk Hkeys]. specialize (IH Hkeys).
    cbn [foldr]. set (rest := foldr _ dom keys) in *.
    unfold section_of. rewrite (bool_decide_eq_true_2 _ Hk).
    destruct (decide (s = k)) as [->|Hne].
    + rewrite (bool_decide_eq_true_2 (k ∈ k :: keys))
        by (apply list_elem_of_here).
      cbn [andb]. pose proof IH as IH'. 
      destruct (rest !! k) as [v|] eqn:Hrest.
      * destruct (which k) eqn:Hw.
        -- rewrite lookup_insert_eq.
           destruct (bool_decide (k ∈ keys)); cbn [andb] in IH';
             destruct (dom !! k); try discriminate; reflexivity.
        -- rewrite Hrest. rewrite andb_false_r in IH'. exact IH'.
      * rewrite Hrest.
        destruct (bool_decide (k ∈ keys)), (which k); cbn [andb] in IH';
          destruct (dom !! k); try discriminate; reflexivity.
    + assert (Hmem : bool_decide (s ∈ k :: keys) = bool_decide (s ∈ keys)).
      { apply bool_decide_ext. rewrite elem_of_cons. tauto. }
      rewrite Hmem, <- IH.
      destruct (rest !! k); [|reflexivity].
      destruct (which k); [|reflexivity].
      apply lookup_insert_ne. congruence.
Qed.

Lemma hide_sections_lookup which dom s :
  hide_sections which dom !! s
  = if bool_decide (s ∈ section_keys) && which s
    then (fun _ => "none") <$> dom !! s
    else dom !! s.
Proof.
  unfold hide_sections. apply hide_keys_lookup.
  apply Forall_forall. auto.
Qed.

(** What the first listener leaves of a section. *)
Lemma navClickFirst_lookup key dom s :
  fst (navClickFirst key dom) !! s
  = if bool_decide (s ∈ section_keys)
    then (fun _ => if shown_after_click dom key s then "block" else "none")
           <$> dom !! s
    else dom !! s.
Proof.
  unfold navClickFirst, shown_after_click.
  set (hidden := hide_sections (fun _ => true) dom).
  assert (Hhidden : forall t,
             hidden !! t
             = if bool_decide (t ∈ section_keys)
               then (fun _ => "none") <$> dom !! t else dom !! t).
  { intros t. unfold hidden. rewrite hide_sections_lookup.
    rewrite andb_true_r. reflexivity. }
  unfold section_of at 1 3.
  destruct (bool_decide (key ∈ section_keys)) eqn:Hkey.
  - rewrite Hhidden, Hkey.
    destruct (dom !! key) as [dk|] eqn:Hdk; cbn [fmap option_fmap option_map fst].
    + destruct (String.eqb_spec key "home") as [->|Hhome].
      * unfold section_of.
        rewrite (bool_decide_eq_true_2 ("upload" ∈ section_keys))
          by (unfold section_keys; set_solver).
        rewrite lookup_insert_ne by discriminate.
        rewrite Hhidden.
        rewrite (bool_decide_eq_true_2 ("upload" ∈ section_keys))
          by (unfold section_keys; set_solver).
        destruct (dom !! "upload") as [du|] eqn:Hdu;
          cbn [fmap option_fmap option_map].
        -- destruct (decide (s = "upload")) as [->|Hsu].
           ++ rewrite lookup_insert_eq, Hdu.
              rewrite (bool_decide_eq_true_2 ("upload" ∈ section_keys))
                by (unfold section_keys; set_solver).
              reflexivity.
           ++ rewrite lookup_insert_ne by congruence.
              destruct (decide (s = "home")) as [->|Hsh].
              ** rewrite lookup_insert_eq, Hdk, Hkey. reflexivity.
              ** rewrite lookup_insert_ne by congruence.
                 rewrite Hhidden.
                 destruct (String.eqb_spec s "home"); [congruence|].
                 destruct (String.eqb_spec s "upload"); [congruence|].
                 reflexivity.
        -- destruct (decide (s = "home")) as [->|Hsh].
           ++ rewrite lookup_insert_eq, Hdk, Hkey. reflexivity.
           ++ rewrite lookup_insert_ne by congruence.
              rewrite Hhidden.
              destruct (String.eqb_spec s "home"); [congruence|].
              destruct (bool_decide (s ∈ section_keys)); [|reflexivity].
              destruct (dom !! s) eqn:Hds; [|reflexivity].
              cbn. destruct (String.eqb_spec s "upload"); [|reflexivity].
              congruence.
      * destruct (decide (s = key)) as [->|Hsk].
        -- rewrite lookup_insert_eq, Hdk, Hkey. cbn.
           rewrite String.eqb_refl. reflexivity.
        -- rewrite lookup_insert_ne by congruence.
           rewrite Hhidden.
           destruct (String.eqb_spec s key); [congruence|].
           destruct (String.eqb_spec key "home"); [congruence|].
           reflexivity.
    + cbn [fst]. apply Hhidden.
  - cbn [fst]. apply Hhidden.
Qed.

(** X18. What a click on a navigation item leaves of the sections,
    after both of its listeners: a section the page has is shown when it
    is the section of the item, or the upload section for the home item,
    and hidden otherwise, whatever was shown before. So the home and
    upload sections are hidden by a click on any other item; a click on
    an item whose section the page lacks hides every section. *)
Theorem nav_click_displays key dom s :
  fst (onNavClick key dom) !! s
  = if bool_decide (s ∈ section_keys)
    then (fun _ => if shown_after_click dom key s then "block" else "none")
           <$> dom !! s
    else dom !! s.
Proof.
  unfold onNavClick. cbn [fst].
  pose proof (navClickFirst_lookup key dom) as Hfirst.
  set (first := fst (navClickFirst key dom)) in *.
  unfold navClickSecond. cbn [fst].
  set (which := fun k => negb (String.eqb k "home")
                         && negb (String.eqb k "upload")).
  set (hidden := hide_sections which first).
  assert (Hhidden : forall t,
             hidden !! t
             = if bool_decide (t ∈ section_keys)
               then (fun _ => if shown_after_click dom key t
                                 && negb (which t)
                              then "block" else "none") <$> dom !! t
               else dom !! t).
  { intros t. unfold hidden. rewrite hide_sections_lookup, Hfirst.
    destruct (bool_decide (t ∈ section_keys)); [|reflexivity].
    cbn [andb]. destruct (which t) eqn:Hw.
    - rewrite andb_false_r. destruct (dom !! t); reflexivity.
    - rewrite andb_true_r. reflexivity. }
  assert (Hother : forall t,
             t <> key -> which t = true ->
             shown_after_click dom key t = false).
  { intros t Hne Hw. unfold shown_after_click.
    destruct (section_of dom key); [|reflexivity].
    destruct (String.eqb_spec t key); [congruence|]. cbn.
    unfold which in Hw. apply andb_true_iff in Hw as [_ Hup].
    destruct (String.eqb t "upload"); [discriminate|].
    apply andb_false_r. }
  assert (Hrest : forall t,
             t <> key ->
             hidden !! t
             = if bool_decide (t ∈ section_keys)
               then (fun _ => if shown_after_click dom key t
                              then "block" else "none") <$> dom !! t
               else dom !! t).
  { intros t Hne. rewrite Hhidden.
    destruct (bool_decide (t ∈ section_keys)); [|reflexivity].
    destruct (dom !! t); [|reflexivity]. cbn.
    destruct (which t) eqn:Hw.
    - rewrite (Hother t Hne Hw). reflexivity.
    - rewrite andb_true_r. reflexivity. }
  unfold section_of at 1.
  destruct (bool_decide (key ∈ section_keys)) eqn:Hkey.
  - destruct (hidden !! key) as [hk|] eqn:Hhk.
    + destruct (decide (s = key)) as [->|Hsk].
      * rewrite lookup_insert_eq, Hkey.
        rewrite Hhidden, Hkey in Hhk.
        destruct (dom !! key) eqn:Hdk; [|discriminate]. cbn.
        unfold shown_after_click, section_of. rewrite Hkey, Hdk.
        rewrite String.eqb_refl. reflexivity.
      * rewrite lookup_insert_ne by congruence. apply Hrest, Hsk.
    + destruct (decide (s = key)) as [->|Hsk]; [|apply Hrest, Hsk].
      rewrite Hhk. rewrite Hhidden, Hkey in Hhk. rewrite Hkey.
      destruct (dom !! key); [discriminate | reflexivity].
  - destruct (decide (s = key)) as [->|Hsk]; [|apply Hrest, Hsk].
    rewrite Hhidden, Hkey. reflexivity.
Qed.

(** X19. The second listener, added to show more sections, changes the
    display of no section once the first one has run: what the page
    shows after a click is what the first listener left. *)
Theorem second_listener_changes_no_display key dom :
  fst (navClickSecond key (fst (navClickFirst key dom)))
  = fst (navClickFirst key dom).
Proof.
  apply map_eq. intros s.
  rewrite navClickFirst_lookup.
  apply (nav_click_displays key dom s).
Qed.

(** X20. The requests a click starts: the item "analytics" loads the
    analytics data once from each listener, twice in all when the page
    has the analytics section and once when it lacks it; the item
    "grievance" loads the grievances once; no other item starts a
    request. *)
Theorem nav_click_requests key dom :
  requests (snd (onNavClick key dom))
  = if String.eqb key "analytics" then
      match dom !! "analytics" with
      | Some _ => ["/health"; "/health"]
      | None => ["/health"]
      end
    else if String.eqb key "grievance" then ["/grievance/list"]
    else [].
Proof.
  unfold onNavClick, navClickFirst, navClickSecond. cbn [fst snd].
  set (hidden := hide_sections (fun _ => true) dom).
  assert (Hsec : section_of hidden key
                 = (fun _ => "none") <$> section_of dom key).
  { unfold section_of, hidden.
    destruct (bool_decide (key ∈ section_keys)) eqn:Hkey; [|reflexivity].
    rewrite hide_sections_lookup, Hkey. reflexivity. }
  rewrite Hsec.
  destruct (String.eqb_spec key "analytics") as [->|Hna].
  - unfold section_of.
    rewrite (bool_decide_eq_true_2 ("analytics" ∈ section_keys))
      by (unfold section_keys; set_solver).
    destruct (dom !! "analytics"); reflexivity.
  - apply String.eqb_neq in Hna.
    destruct (section_of dom key) as [d|];
      cbn [fmap option_fmap option_map fst snd]; rewrite ?Hna;
      destruct (String.eqb key "grievance"); reflexivity.
Qed.

(** ** The workflow tracker *)

(** X21. The five steps of the workflow display: when the status is the
    step at position [k], the [k] steps before it are "completed", it is
    "current" and the steps behind it are "pending"; for any other
    status, or none, all five steps are "pending". So there is never
    more than one current step, and no completed step follows it. *)
Theorem workflow_step_classes :
  (forall k s,
      workflow_steps !! k = Some s ->
      step_classes (Some s)
      = replicate k "completed" ++ "current" :: replicate (4 - k) "pending") /\
  (forall status,
      (forall s, status = Some s -> s ∉ workflow_steps) ->
      step_classes status = replicate 5 "pending").
Proof.
  split.
  - intros k s Hk.
    do 5 (destruct k as [|k]; [injection Hk as <-; reflexivity|]).
    discriminate.
  - intros status Hout. destruct status as [s|]; [|reflexivity].
    specialize (Hout s eq_refl).
    assert (Hidx : indexOf workflow_steps (Some s) = -1).
    { unfold workflow_steps in *. cbn [indexOf].
      repeat (rewrite bool_decide_eq_false_2
                by (intros [= <-]; apply Hout; set_solver)).
      reflexivity. }
    unfold step_classes. rewrite Hidx. reflexivity.
Qed.

Lemma workflow_step_classes_witness :
  workflow_steps !! 2%nat = Some "pending_approval" /\
  step_classes (Some "pending_approval")
  = ["completed"; "completed"; "current"; "pending"; "pending"].
Proof.
  split; [reflexivity|].
  exact (proj1 workflow_step_classes 2%nat "pending_approval" eq_refl).
Defined.

Lemma trim_start_blank s : all_space s = true -> trim_start s = "".
Proof.
  induction s as [|c s IH]; [reflexivity|].
  simpl. intros H. apply andb_true_iff in H as [Hc Hs].
  rewrite Hc. apply IH, Hs.
Qed.

(** X22. [trackWorkflow] never throws, leaves the variables of the
    pipeline alone and asks for exactly one workflow. The id it asks for
    is never empty: it is the trimmed input, and "DOC-2024-0001" when
    the input is missing, empty or white space only. It shows at most
    one toast, and exactly one when the page has the workflow
    display. *)
Theorem trackWorkflow_asks_once service display input st :
  let r := trackWorkflow service display input st in
  let trimmed := trim (default "" input) in
  let id := if truthy (Some trimmed) then trimmed else "DOC-2024-0001" in
  run_outcome r = Return tt /\
  run_state r = st /\
  requests (run_events r) = ["/workflow/" +:+ id] /\
  id <> "" /\
  (all_space (default "" input) = true -> id = "DOC-2024-0001") /\
  (length (toasts (run_events r)) <= 1)%nat /\
  (display = true -> length (toasts (run_events r)) = 1%nat).
Proof.
  intros r trimmed id.
  assert (Hid : id <> "").
  { subst id. destruct (truthy (Some trimmed)) eqn:Ht; [|discriminate].
    intros Heq. rewrite Heq in Ht. discriminate. }
  assert (Hblank : all_space (default "" input) = true ->
                   id = "DOC-2024-0001").
  { intros Hall. subst id trimmed. unfold trim.
    rewrite (trim_start_blank _ Hall). reflexivity. }
  subst r. unfold trackWorkflow. fold trimmed. fold id.
  unfold displayWorkflow, deref.
  unfold bind, try_catch, emit, ret, throw, run_outcome, run_state,
    run_events.
  cbn [fst snd].
  destruct (service id) as [|[|] [| |[status|]]]; destruct display;
    cbn; repeat split; auto; try discriminate; try lia.
Qed.

Lemma trackWorkflow_asks_once_witness :
  all_space (default "" (Some "   ")) = true /\
  requests
    (run_events
       (trackWorkflow (fun _ => WorkflowRejected) true (Some "   ")
          initial_state))
  = ["/workflow/DOC-2024-0001"].
Proof.
  split; [reflexivity|].
  destruct (trackWorkflow_asks_once (fun _ => WorkflowRejected) true
              (Some "   ") initial_state)
    as (_ & _ & Hreq & _ & Hblank & _).
  rewrite Hreq, (Hblank eq_refl). reflexivity.
Defined.

(** X23. A workflow whose body has no [current_status] is drawn, with
    all five steps pending, and then reported as a failure: after the
    write to the display the only toast is "Failed to fetch
    workflow". *)
Theorem workflow_without_status service input st :
  let trimmed := trim (default "" input) in
  let id := if truthy (Some trimmed) then trimmed else "DOC-2024-0001" in
  service id = WorkflowResponded true (WorkflowObject None) ->
  run_events (trackWorkflow service true input st)
  = [Request ("/workflow/" +:+ id);
     DomWrite "workflowDisplay";
     Toast "error" "Error" "Failed to fetch workflow"] /\
  step_classes None = replicate 5 "pending".
Proof.
  intros trimmed id Hbody. split; [|reflexivity].
  unfold trackWorkflow. fold trimmed. fold id. rewrite Hbody.
  reflexivity.
Qed.

Lemma workflow_without_status_witness :
  (fun _ : string => WorkflowResponded true (WorkflowObject None))
    "DOC-2024-0001"
  = WorkflowResponded true (WorkflowObject None) /\
  toasts
    (run_events
       (trackWorkflow
          (fun _ => WorkflowResponded true (WorkflowObject None))
          true None initial_state))
  = [Toast "error" "Error" "Failed to fetch workflow"].
Proof.
  split; [reflexivity|].
  rewrite (proj1 (workflow_without_status
                    (fun _ => WorkflowResponded true (WorkflowObject None))
                    None initial_state eq_refl)).
  reflexivity.
Defined.

(** ** Highlighting *)

Lemma app_String c (a b : string) : String c a +:+ b = String c (a +:+ b).
Proof. reflexivity. Qed.

Lemma str_take_drop n s : str_take n s +:+ str_drop n s = s.
Proof.
  revert s. induction n as [|n IH]; intros [|c s]; try reflexivity.
  cbn [str_take str_drop]. rewrite app_String, IH. reflexivity.
Qed.

Lemma str_take_length n s :
  (n <= String.length s)%nat -> String.length (str_take n s) = n.
Proof.
  revert s. induction n as [|n IH]; intros [|c s] Hn; simpl in *;
    try reflexivity; try lia.
  rewrite IH by lia. reflexivity.
Qed.

Lemma str_drop_length n s :
  String.length (str_drop n s) = (String.length s - n)%nat.
Proof.
  revert s. induction n as [|n IH]; intros [|c s]; simpl; try reflexivity.
  apply IH.
Qed.

Lemma lower_ascii_idem c :
  JsString.lower_ascii (JsString.lower_ascii c) = JsString.lower_ascii c.
Proof. destruct c as [[] [] [] [] [] [] [] []]; reflexivity. Qed.

Lemma toLowerCase_idem s :
  JsString.toLowerCase (JsString.toLowerCase s) = JsString.toLowerCase s.
Proof.
  induction s as [|c s IH]; [reflexivity|].
  simpl. rewrite lower_ascii_idem, IH. reflexivity.
Qed.

Lemma toLowerCase_length s :
  String.length (JsString.toLowerCase s) = String.length s.
Proof. induction s as [|c s IH]; [reflexivity|]. simpl. rewrite IH. reflexivity. Qed.

(** Where the word starts, the text begins with a piece as long as the
    word and equal to it, letter case aside. *)
Lemma starts_with_word_take word :
  forall text,
    starts_with_word word text = true ->
    (String.length word <= String.length text)%nat /\
    JsString.toLowerCase (str_take (String.length word) text)
    = JsString.toLowerCase word.
Proof.
  induction word as [|p word IH]; intros text Hstart.
  - split; [simpl; lia | reflexivity].
  - destruct text as [|c text]; [discriminate|].
    simpl in Hstart. apply andb_true_iff in Hstart as [Hc Hrest].
    apply Ascii.eqb_eq in Hc.
    destruct (IH text Hrest) as [Hlen Hlow].
    split; [simpl; lia|]. simpl. rewrite Hc, Hlow. reflexivity.
Qed.

(** Inside a match, the rest of the match is copied and closed. *)
Lemma replace_word_from_inside word :
  forall k text,
    (S k <= String.length text)%nat ->
    replace_word_from word (S k) text
    = str_take (S k) text
        +:+ highlight_close
        +:+ replace_word_from word 0 (str_drop (S k) text).
Proof.
  induction k as [|k IH]; intros [|c rest] Hlen; simpl in Hlen; try lia.
  - reflexivity.
  - cbn [replace_word_from]. rewrite (IH rest) by lia. reflexivity.
Qed.

(** At a match, the match is wrapped and reading goes on behind it. *)
Lemma replace_word_at_match word text :
  (1 <= String.length word)%nat ->
  starts_with_word word text = true ->
  replace_word_from word 0 text
  = highlight_open
      +:+ str_take (String.length word) text
      +:+ highlight_close
      +:+ replace_word_from word 0 (str_drop (String.length word) text).
Proof.
  intros Hword Hstart.
  destruct (starts_with_word_take word text Hstart) as [Hlen _].
  destruct text as [|c rest]; [simpl in Hlen; lia|].
  cbn [replace_word_from]. rewrite Hstart.
  destruct (String.length word) as [|[|k]] eqn:Hn; [lia| |].
  - reflexivity.
  - simpl in Hlen.
    rewrite (replace_word_from_inside word k rest) by lia.
    reflexivity.
Qed.

Lemma replace_word_marked word :
  (1 <= String.length word)%nat ->
  forall text, marked word text (replace_word word text).
Proof.
  intros Hword text. unfold replace_word.
  remember (String.length text) as n eqn:Hn.
  revert text Hn. induction n as [n IH] using lt_wf_ind. intros text Hn.
  destruct text as [|c rest]; [constructor|].
  destruct (starts_with_word word (String c rest)) eqn:Hstart.
  - rewrite (replace_word_at_match word _ Hword Hstart).
    destruct (starts_with_word_take word _ Hstart) as [Hlen Hlow].
    rewrite <- (str_take_drop (String.length word) (String c rest)) at 1.
    apply marked_hit.
    + apply str_take_length, Hlen.
    + exact Hlow.
    + apply (IH (String.length (str_drop (String.length word) (String c rest)))).
      * rewrite str_drop_length. subst n. simpl in *. lia.
      * reflexivity.
  - cbn [replace_word_from]. rewrite Hstart.
    apply marked_copy; [exact Hstart|].
    apply (IH (String.length rest)); [subst n; simpl; lia | reflexivity].
Qed.

Lemma plain_char_lower c :
  plain_char c = true ->
  Ascii.eqb (JsString.lower_ascii c) " " = false.
Proof. destruct c as [[] [] [] [] [] [] [] []]; intros H; try reflexivity; discriminate. Qed.

Lemma plain_word_no_space w :
  plain_word w = true ->
  JsString.occurs " " (JsString.toLowerCase w) = false.
Proof.
  induction w as [|c w IH]; [reflexivity|].
  simpl. intros H. apply andb_true_iff in H as [Hc Hw].
  rewrite (plain_char_lower c Hc), (IH Hw). reflexivity.
Qed.

(** X24. Words of one or two characters are not highlighted: with a
    query that has no longer word (the empty query among them), the text
    is returned as it is. *)
Theorem highlight_ignores_short_words text query :
  Forall (fun w => (String.length w <= 2)%nat)
    (JsString.split " " (JsString.toLowerCase query)) ->
  highlightText text query = text.
Proof.
  unfold highlightText.
  generalize (JsString.split " " (JsString.toLowerCase query)).
  intros words Hshort. revert text.
  induction Hshort as [|w words Hw _ IH]; intros text; [reflexivity|].
  cbn [fold_left].
  destruct (Nat.ltb_spec 2 (String.length w)); [lia|]. apply IH.
Qed.

Lemma highlight_ignores_short_words_witness :
  Forall (fun w => (String.length w <= 2)%nat)
    (JsString.split " " (JsString.toLowerCase "Of it")) /\
  highlightText "Copy of it" "Of it" = "Copy of it".
Proof.
  assert (H : Forall (fun w => (String.length w <= 2)%nat)
                (JsString.split " " (JsString.toLowerCase "Of it"))).
  { repeat constructor. }
  split; [exact H|].
  exact (highlight_ignores_short_words "Copy of it" "Of it" H).
Defined.

(** X25. With a query that is one word of letters and digits, longer
    than two characters, the result is the text with occurrences of the
    word, letter case aside, each put between the opening and the
    closing tag in the letter case the text has; every other character
    is copied unchanged, and only where the word does not start. *)
Theorem highlight_marks_the_word text word :
  plain_word word = true ->
  (2 < String.length word)%nat ->
  marked (JsString.toLowerCase word) text (highlightText text word).
Proof.
  intros Hplain Hlong. unfold highlightText.
  rewrite (JsStringFacts.split_no_sep _ _ (plain_word_no_space word Hplain)).
  cbn [fold_left]. rewrite toLowerCase_length.
  destruct (Nat.ltb_spec 2 (String.length word)); [|lia].
  apply replace_word_marked. rewrite toLowerCase_length. lia.
Qed.

Lemma highlight_marks_the_word_witness :
  plain_word "Budget" = true /\
  (2 < String.length "Budget")%nat /\
  marked "budget" "The BUDGET note"
    (highlightText "The BUDGET note" "Budget").
Proof.
  assert (H1 : plain_word "Budget" = true) by reflexivity.
  assert (H2 : (2 < String.length "Budget")%nat) by (simpl; lia).
  split; [exact H1|]. split; [exact H2|].
  exact (highlight_marks_the_word "The BUDGET note" "Budget" H1 H2).
Defined.

Lemma split_at_sep sep a b :
  JsString.occurs sep a = false ->
  JsString.split sep (a +:+ String sep b) = a :: JsString.split sep b.
Proof.
  induction a as [|c a IH]; intros Ha.
  - change ("" +:+ String sep b) with (String sep b).
    cbn [JsString.split]. rewrite Ascii.eqb_refl. reflexivity.
  - simpl in Ha. apply orb_false_iff in Ha as [Hc Ha].
    rewrite app_String. cbn [JsString.split]. rewrite Hc, (IH Ha).
    reflexivity.
Qed.

Lemma toLowerCase_app a b :
  JsString.toLowerCase (a +:+ b)
  = JsString.toLowerCase a +:+ JsString.toLowerCase b.
Proof.
  induction a as [|c a IH]; [reflexivity|].
  rewrite app_String. cbn [JsString.toLowerCase].
  rewrite IH, app_String. reflexivity.
Qed.

Lemma highlightText_one_word text word :
  plain_word word = true ->
  highlightText text word
  = if (2 <? String.length word)%nat
    then replace_word (JsString.toLowerCase word) text
    else text.
Proof.
  intros Hplain. unfold highlightText.
  rewrite (JsStringFacts.split_no_sep _ _ (plain_word_no_space word Hplain)).
  cbn [fold_left]. rewrite toLowerCase_length. reflexivity.
Qed.

Lemma highlightText_after_word text first query :
  plain_word first = true ->
  highlightText text (first +:+ " " +:+ query)
  = fold_left
      (fun highlighted word =>
         if (2 <? String.length word)%nat
         then replace_word word highlighted else highlighted)
      (JsString.split " " (JsString.toLowerCase query))
      (highlightText text first).
Proof.
  intros Hfirst.
  rewrite (highlightText_one_word text first Hfirst).
  unfold highlightText.
  rewrite toLowerCase_app.
  change (JsString.toLowerCase (" " +:+ query))
    with (String " " (JsString.toLowerCase query)).
  rewrite (split_at_sep " " _ _ (plain_word_no_space first Hfirst)).
  cbn [fold_left]. rewrite !toLowerCase_length. reflexivity.
Qed.

(** X26. The words of a query are applied one after the other, each to
    the result of the one before: highlighting with a plain word
    followed by a space and more words is highlighting with the word,
    then highlighting the marked-up result with the rest. *)
Theorem highlight_words_in_sequence text first query :
  plain_word first = true ->
  highlightText text (first +:+ " " +:+ query)
  = highlightText (highlightText text first) query.
Proof.
  intros Hfirst.
  rewrite highlightText_after_word by exact Hfirst.
  reflexivity.
Qed.

Lemma highlight_words_in_sequence_witness :
  plain_word "budget" = true /\
  highlightText "The BUDGET note" ("budget" +:+ " " +:+ "note")
  = highlightText (highlightText "The BUDGET note" "budget") "note".
Proof.
  split; [reflexivity|].
  apply (highlight_words_in_sequence "The BUDGET note" "budget" "note").
  reflexivity.
Defined.

(** X27. A later word that occurs in the tags is highlighted inside
    the tags an earlier word brought. Where the text starts with a
    plain word of three or more characters, the query made of that word
    and "span" gives a result that starts with a broken opening tag:
    "<", then a highlighted "span". *)
Theorem highlight_breaks_earlier_tags text first :
  plain_word first = true ->
  (2 < String.length first)%nat ->
  starts_with_word (JsString.toLowerCase first) text = true ->
  exists rest,
    highlightText text (first +:+ " span")
    = "<" +:+ highlight_open +:+ "span" +:+ highlight_close +:+ rest.
Proof.
  intros Hfirst Hlong Hstart.
  change (first +:+ " span") with (first +:+ " " +:+ "span").
  rewrite highlightText_after_word by exact Hfirst.
  rewrite (highlightText_one_word text first Hfirst).
  destruct (Nat.ltb_spec 2 (String.length first)); [|lia].
  unfold replace_word at 2.
  rewrite (replace_word_at_match _ text)
    by (rewrite ?toLowerCase_length; try lia; exact Hstart).
  eexists. unfold highlight_open, dquote. cbn. reflexivity.
Qed.

Lemma highlight_breaks_earlier_tags_witness :
  plain_word "budget" = true /\
  (2 < String.length "budget")%nat /\
  starts_with_word (JsString.toLowerCase "budget") "Budget 2024" = true /\
  exists rest,
    highlightText "Budget 2024" ("budget" +:+ " span")
    = "<" +:+ highlight_open +:+ "span" +:+ highlight_close +:+ rest.
Proof.
  assert (H1 : plain_word "budget" = true) by reflexivity.
  assert (H3 : (2 < String.length "budget")%nat) by (simpl; lia).
  assert (H4 : starts_with_word (JsString.toLowerCase "budget")
                 "Budget 2024" = true) by reflexivity.
  split; [exact H1|]. split; [exact H3|]. split; [exact H4|].
  exact (highlight_breaks_earlier_tags "Budget 2024" "budget" H1 H3 H4).
Defined.
